(** * calculator.py: solar sizing and economics, checked against its specification

    The module has two functions.  [get_pvout_annual] asks the PVGIS service
    for the annual yield of one kWp at a coordinate; [calculate_solar_economics]
    turns a yield, a monthly bill, a tariff and a savings percentage into a
    capacity, a panel count, an investment and a break-even time.

    The embedding keeps the Python semantics the code relies on:
    - a Python [float] is an IEEE-754 binary64 number, here the primitive
      [float] of the kernel, specified bit by bit through [Prim2SF];
    - [round(x, n)], [math.ceil], [float(...)], [str(...)] and the implicit
      [int -> float] conversion are defined exactly, on the exact rational
      value of the double;
    - arguments are dynamically typed values [pyval]; a [raise] is an
      explicit outcome, and each [try/except] of the source is a [match];
    - a [dict] is an association list in insertion order;
    - the network is an argument of [get_pvout_annual]: a function from the
      requested URL to what [requests.get] does with it. *)

From Stdlib Require Import ZArith Floats String Ascii List Bool Lia DecimalString.
Import ListNotations.

Set Warnings "-inexact-float,-register-all,-abstract-large-number".
Local Open Scope list_scope.
Local Open Scope string_scope.
Local Open Scope Z_scope.

(** ** Binary64 numbers and the numeric built-ins *)

Module PyFloat.

(** The double nearest to [num/den] (ties to even) with the given sign;
    [num >= 0] and [den > 0].  IEEE division of the two integers, taken as
    (unnormalised) binary floats with exponent 0, rounds the exact quotient
    once. *)
Definition nearest_float (neg : bool) (num den : Z) : float :=
  match num, den with
  | Zpos p, Zpos q =>
      SF2Prim (SFdiv prec emax (S754_finite neg p 0) (S754_finite false q 0))
  | _, _ => if neg then PrimFloat.neg_zero else PrimFloat.zero
  end.

(** The double nearest to an integer (ties to even); the overflow test of
    Python's conversion is in [Py.int_to_float]. *)
Definition float_of_Z (z : Z) : float :=
  SF2Prim (binary_normalize prec emax z 0 false).

(** [num/den] rounded to the nearest integer, ties to even ([den > 0]). *)
Definition round_half_even (num den : Z) : Z :=
  let q := num / den in
  let r := num mod den in
  match 2 * r ?= den with
  | Lt => q
  | Gt => q + 1
  | Eq => if Z.even q then q else q + 1
  end.

(** [round(x, ndigits)] for a float [x] and [ndigits >= 0] (the source
    passes 0, 1, 2 and 4).  CPython rounds the exact binary value of [x] to
    [ndigits] decimals, ties to even, and converts that decimal back to the
    nearest double; NaN and the infinities are returned unchanged, and the
    sign of [x] is kept, so [round(-0.001, 2)] is [-0.0]. *)
Definition py_round (x : float) (ndigits : nat) : float :=
  match Prim2SF x with
  | S754_finite s m e =>
      let p := 10 ^ Z.of_nat ndigits in
      let n := if 0 <=? e
               then Zpos m * 2 ^ e * p
               else round_half_even (Zpos m * p) (2 ^ (- e)) in
      nearest_float s n p
  | _ => x
  end.

(** The integer [math.ceil] returns on a finite float; [None] on NaN and
    the infinities, where [math.ceil] raises. *)
Definition ceil_Z (x : float) : option Z :=
  match Prim2SF x with
  | S754_zero _ => Some 0
  | S754_finite s m e =>
      let a := if s then Zneg m else Zpos m in
      Some (if 0 <=? e then a * 2 ^ e else - ((- a) / 2 ^ (- e)))
  | _ => None
  end.

(** Integers from this bound on round to [2^1024]: they have no double. *)
Definition float_overflow_bound : Z := 2 ^ 1024 - 2 ^ 970.

End PyFloat.

(** ** Strings: [float(str)], [repr] of a float and of a string

    A string is the sequence of its code points, all below 256; of the
    Unicode spaces [float] strips, U+0085 and U+00A0 are in that range.
    The Unicode digits and spaces beyond it, which CPython's [float] also
    accepts, are outside the model. *)

Module PyStr.
Import PyFloat.

Definition code (c : ascii) : Z := Z.of_nat (nat_of_ascii c).

(** The white space [float] strips from both ends of a string: the ASCII
    one, and the two Unicode spaces below 256, U+0085 and U+00A0. *)
Definition is_space (c : ascii) : bool :=
  ((9 <=? code c) && (code c <=? 13)) || (code c =? 32)
  || (code c =? 133) || (code c =? 160).

Definition is_digit (c : ascii) : bool := (48 <=? code c) && (code c <=? 57).

Definition lower (c : ascii) : ascii :=
  if (65 <=? code c) && (code c <=? 90)
  then ascii_of_nat (nat_of_ascii c + 32) else c.

(** [str(z)] of an integer, in full (the interpreter's optional limit on
    the number of digits is not modelled). *)
Definition str_of_Z (z : Z) : string := NilZero.string_of_int (Z.to_int z).

Fixpoint lstrip (s : string) : string :=
  match s with
  | String c r => if is_space c then lstrip r else s
  | EmptyString => s
  end.

Fixpoint rstrip (s : string) : string :=
  match s with
  | String c r =>
      match rstrip r with
      | EmptyString => if is_space c then EmptyString else String c EmptyString
      | r' => String c r'
      end
  | EmptyString => s
  end.

Fixpoint map_string (f : ascii -> ascii) (s : string) : string :=
  match s with
  | String c r => String (f c) (map_string f r)
  | EmptyString => s
  end.

(** Underscores are allowed between two digits only, and are dropped. *)
Fixpoint drop_underscores (prev : ascii) (s : string) : option string :=
  match s with
  | EmptyString => if Ascii.eqb prev "_" then None else Some s
  | String c r =>
      if Ascii.eqb c "_"
      then if is_digit prev then drop_underscores c r else None
      else if Ascii.eqb prev "_" && negb (is_digit c) then None
           else option_map (String c) (drop_underscores c r)
  end.

Fixpoint read_digits (s : string) (acc cnt : Z) : Z * Z * string :=
  match s with
  | String c r =>
      if is_digit c then read_digits r (10 * acc + (code c - 48)) (cnt + 1)
      else (acc, cnt, s)
  | EmptyString => (acc, cnt, s)
  end.

Definition read_sign (s : string) : bool * string :=
  match s with
  | String "-" r => (true, r)
  | String "+" r => (false, r)
  | _ => (false, s)
  end.

(** An exponent is read only when a digit follows [e] and the sign. *)
Definition read_exponent (s : string) : Z * string :=
  match s with
  | String c r =>
      if Ascii.eqb (lower c) "e" then
        let '(neg, r1) := read_sign r in
        let '(ev, cnt, r2) := read_digits r1 0 0 in
        if 0 <? cnt then (if neg then - ev else ev, r2) else (0, s)
      else (0, s)
  | EmptyString => (0, s)
  end.

(** [sign digits [. digits] [exponent]] with a digit before or after the
    point; the value is the double nearest to the decimal. *)
Definition parse_decimal (s : string) : option float :=
  let '(neg, s0) := read_sign s in
  let '(m1, c1, s1) := read_digits s0 0 0 in
  let '(m2, c2, s2) :=
    match s1 with
    | String "." r => read_digits r m1 0
    | _ => (m1, 0, s1)
    end in
  if 0 <? c1 + c2 then
    let '(ev, s3) := read_exponent s2 in
    match s3 with
    | EmptyString =>
        let d := ev - c2 in
        Some (if 0 <=? d then nearest_float neg (m2 * 10 ^ d) 1
              else nearest_float neg m2 (10 ^ (- d)))
    | _ => None
    end
  else None.

Definition parse_inf_or_nan (s : string) : option float :=
  let '(neg, s0) := read_sign s in
  let w := map_string lower s0 in
  if String.eqb w "inf" || String.eqb w "infinity"
  then Some (if neg then neg_infinity else infinity)
  else if String.eqb w "nan" then Some nan else None.

(** [float(s)] of a string: its value, or [None] where Python raises
    [ValueError]. *)
Definition float_of_string (s : string) : option float :=
  match drop_underscores " " s with
  | None => None
  | Some s1 =>
      let s2 := rstrip (lstrip s1) in
      match parse_decimal s2 with
      | Some f => Some f
      | None => parse_inf_or_nan s2
      end
  end.

(** *** [repr] of a float: the shortest decimal that reads back as it *)

Definition below_pow10 (num den p : Z) : bool :=
  if 0 <=? p then num <? den * 10 ^ p else num * 10 ^ (- p) <? den.

(** The least [p'] from [p] upwards with [num/den < 10^p']. *)
Fixpoint find_decpt (fuel : nat) (num den p : Z) : Z :=
  match fuel with
  | O => p
  | S f => if below_pow10 num den p then p else find_decpt f num den (p + 1)
  end.

Definition decimal_to_float (d k : Z) : float :=
  if 0 <=? k then nearest_float false (d * 10 ^ k) 1
  else nearest_float false d (10 ^ (- k)).

Definition floor_scaled (num den k : Z) : Z :=
  if 0 <=? k then num / (den * 10 ^ k) else (num * 10 ^ (- k)) / den.

Definition closer_to_low (num den lo k : Z) : bool :=
  let c := if 0 <=? k then 2 * num ?= (2 * lo + 1) * den * 10 ^ k
           else 2 * num * 10 ^ (- k) ?= (2 * lo + 1) * den in
  match c with
  | Lt => true
  | Gt => false
  | Eq => Z.even lo
  end.

(** With [n] significant digits the two candidates are the neighbours
    [lo * 10^k] and [(lo + 1) * 10^k] of [num/den]; the first [n] at which
    one of them reads back as [x] gives the digits. *)
Fixpoint shortest_digits (fuel : nat) (x : float) (num den p n : Z) : Z * Z :=
  let k := p - n in
  let lo := floor_scaled num den k in
  let oklo := PrimFloat.Leibniz.eqb (decimal_to_float lo k) x in
  let okhi := PrimFloat.Leibniz.eqb (decimal_to_float (lo + 1) k) x in
  match fuel with
  | O => (if closer_to_low num den lo k then lo else lo + 1, k)
  | S f =>
      if oklo && okhi
      then (if closer_to_low num den lo k then lo else lo + 1, k)
      else if oklo then (lo, k)
      else if okhi then (lo + 1, k)
      else shortest_digits f x num den p (n + 1)
  end.

Fixpoint strip_zeros (fuel : nat) (d k : Z) : Z * Z :=
  match fuel with
  | O => (d, k)
  | S f =>
      if (d mod 10 =? 0) && negb (d =? 0)
      then strip_zeros f (d / 10) (k + 1) else (d, k)
  end.

Fixpoint zeros (n : nat) : string :=
  match n with
  | O => EmptyString
  | S m => String "0" (zeros m)
  end.

(** Fixed notation while the decimal point falls within [-4 < decpt <= 16],
    exponent notation otherwise, as [repr] prints. *)
Definition format_repr (ds : string) (decpt : Z) : string :=
  let len := Z.of_nat (String.length ds) in
  if (decpt <? -3) || (16 <? decpt) then
    let x := decpt - 1 in
    let mant := match ds with
                | String c EmptyString => ds
                | String c r => String c (String "." r)
                | EmptyString => ds
                end in
    mant ++ "e" ++ (if x <? 0 then "-" else "+")
         ++ (if Z.abs x <? 10 then "0" else "") ++ str_of_Z (Z.abs x)
  else if decpt <=? 0 then "0." ++ zeros (Z.to_nat (- decpt)) ++ ds
  else if len <=? decpt then ds ++ zeros (Z.to_nat (decpt - len)) ++ ".0"
  else substring 0 (Z.to_nat decpt) ds ++ "."
       ++ substring (Z.to_nat decpt) (Z.to_nat (len - decpt)) ds.

(** [repr(x)], which is also [str(x)].  The search for the decimal
    exponent starts from [log2 (num/den) * log10 2], taken from below: the
    exponent is at most two steps above it. *)
Definition float_repr (x : float) : string :=
  match Prim2SF x with
  | S754_nan => "nan"
  | S754_infinity s => if s then "-inf" else "inf"
  | S754_zero s => if s then "-0.0" else "0.0"
  | S754_finite s m e =>
      let num := if 0 <=? e then Zpos m * 2 ^ e else Zpos m in
      let den := if 0 <=? e then 1 else 2 ^ (- e) in
      let p := find_decpt 4 num den
                 (((Z.log2 num - Z.log2 den - 1) * 30103) / 100000) in
      let '(d0, k0) := shortest_digits 16 (abs x) num den p 1 in
      let '(d, k) := strip_zeros 20 d0 k0 in
      let ds := str_of_Z d in
      (if s then "-" else "") ++ format_repr ds (Z.of_nat (String.length ds) + k)
  end.

(** *** [repr] of a string and [str.replace] on one character *)

Definition quote : ascii := "'".
Definition dquote : ascii := "034".
Definition backslash : ascii := "\".

Fixpoint has_char (a : ascii) (s : string) : bool :=
  match s with
  | String c r => Ascii.eqb c a || has_char a r
  | EmptyString => false
  end.

Definition hex_digit (n : Z) : ascii :=
  ascii_of_nat (Z.to_nat (if n <? 10 then 48 + n else 87 + n)).

Definition escape_char (q c : ascii) : string :=
  let n := code c in
  if Ascii.eqb c backslash then String backslash (String backslash "")
  else if Ascii.eqb c q then String backslash (String q "")
  else if n =? 9 then String backslash "t"
  else if n =? 10 then String backslash "n"
  else if n =? 13 then String backslash "r"
  else if (n <? 32) || ((127 <=? n) && (n <=? 160)) || (n =? 173)
  then String backslash (String "x"
         (String (hex_digit (n / 16)) (String (hex_digit (n mod 16)) "")))
  else String c "".

Fixpoint escape_string (q : ascii) (s : string) : string :=
  match s with
  | String c r => escape_char q c ++ escape_string q r
  | EmptyString => s
  end.

Definition repr_string (s : string) : string :=
  let q := if has_char quote s && negb (has_char dquote s)
           then dquote else quote in
  String q (escape_string q s) ++ String q "".

Fixpoint replace_char (a b : ascii) (s : string) : string :=
  match s with
  | String c r => String (if Ascii.eqb c a then b else c) (replace_char a b r)
  | EmptyString => s
  end.

(** [s.startswith(p)]. *)
Fixpoint starts_with (p s : string) : bool :=
  match p with
  | EmptyString => true
  | String a p' =>
      match s with
      | String b s' => Ascii.eqb a b && starts_with p' s'
      | EmptyString => false
      end
  end.

(** [needle in hay]. *)
Fixpoint contains (needle hay : string) : bool :=
  starts_with needle hay
  || match hay with
     | String _ r => contains needle r
     | EmptyString => false
     end.

End PyStr.

(** ** Python values, exceptions and the built-ins the module calls *)

Module Py.
Import PyFloat PyStr.

Inductive pyval : Type :=
| VNone
| VBool (b : bool)
| VInt (z : Z)
| VFloat (f : float)
| VStr (s : string)
| VList (l : list pyval)
| VDict (d : list (string * pyval)).

(** A [dict] with string keys, in insertion order. *)
Definition pydict : Type := list (string * pyval).

Fixpoint dict_get (d : pydict) (k : string) : option pyval :=
  match d with
  | [] => None
  | (k', v) :: r => if String.eqb k' k then Some v else dict_get r k
  end.

Definition dict_keys (d : pydict) : list string := map fst d.

(** Exceptions: the class an [except] clause tests, and [str(e)], with
    the messages of CPython 3.11.  The subclasses of
    [requests.exceptions.RequestException] (connection errors, timeouts,
    [HTTPError], ...) are one class here; every class is a subclass of
    [Exception]. *)
Inductive exn_class : Type :=
| TypeError
| ValueError
| OverflowError
| ZeroDivisionError
| KeyError
| RequestException
| OtherException.

Record pyexn : Type := mk_exn { exn_cls : exn_class; exn_str : string }.

Inductive outcome (A : Type) : Type :=
| Returned (a : A)
| Raised (e : pyexn).
Arguments Returned {A} a.
Arguments Raised {A} e.

Definition bind {A B : Type} (m : outcome A) (k : A -> outcome B) : outcome B :=
  match m with
  | Returned a => k a
  | Raised e => Raised e
  end.

Notation "x <- m ;; k" := (bind m (fun x => k))
  (at level 61, m at next level, right associativity).

Definition is_request_exception (e : pyexn) : bool :=
  match exn_cls e with
  | RequestException => true
  | _ => false
  end.

Definition type_name (v : pyval) : string :=
  match v with
  | VNone => "NoneType"
  | VBool _ => "bool"
  | VInt _ => "int"
  | VFloat _ => "float"
  | VStr _ => "str"
  | VList _ => "list"
  | VDict _ => "dict"
  end.

(** Truth value of an object, as [and] and [if] test it. *)
Definition py_truthy (v : pyval) : bool :=
  match v with
  | VNone => false
  | VBool b => b
  | VInt z => negb (z =? 0)
  | VFloat f => negb (f =? 0)%float
  | VStr s => negb (String.eqb s "")
  | VList l => match l with [] => false | _ => true end
  | VDict d => match d with [] => false | _ => true end
  end.

(** The implicit conversion of an [int] operand of a float operation, and
    [float(int)]. *)
Definition int_to_float (z : Z) : outcome float :=
  if Z.abs z <? float_overflow_bound
  then Returned (float_of_Z z)
  else Raised (mk_exn OverflowError "int too large to convert to float").

(** [float(v)]. *)
Definition py_float (v : pyval) : outcome float :=
  match v with
  | VFloat f => Returned f
  | VInt z => int_to_float z
  | VBool b => Returned (if b then 1 else 0)%float
  | VStr s =>
      match float_of_string s with
      | Some f => Returned f
      | None => Raised (mk_exn ValueError
                  ("could not convert string to float: " ++ repr_string s))
      end
  | _ => Raised (mk_exn TypeError
           ("float() argument must be a string or a real number, not '"
            ++ type_name v ++ "'"))
  end.

(** [a / b] on floats. *)
Definition float_div (a b : float) : outcome float :=
  if (b =? 0)%float
  then Raised (mk_exn ZeroDivisionError "float division by zero")
  else Returned (a / b)%float.

(** [math.ceil(x)] on a float. *)
Definition math_ceil (x : float) : outcome Z :=
  match ceil_Z x with
  | Some z => Returned z
  | None =>
      if PrimFloat.is_nan x
      then Raised (mk_exn ValueError "cannot convert float NaN to integer")
      else Raised (mk_exn OverflowError "cannot convert float infinity to integer")
  end.

Fixpoint join (sep : string) (l : list string) : string :=
  match l with
  | [] => ""
  | [x] => x
  | x :: r => x ++ sep ++ join sep r
  end.

Fixpoint py_repr (v : pyval) : string :=
  match v with
  | VNone => "None"
  | VBool b => if b then "True" else "False"
  | VInt z => str_of_Z z
  | VFloat f => float_repr f
  | VStr s => repr_string s
  | VList l => "[" ++ join ", " (map py_repr l) ++ "]"
  | VDict d =>
      "{" ++ join ", "
               (map (fun kv => match kv with
                               | (k, x) => repr_string k ++ ": " ++ py_repr x
                               end) d) ++ "}"
  end.

(** [str(v)], which an f-string field [{v}] inserts. *)
Definition py_str (v : pyval) : string :=
  match v with
  | VStr s => s
  | _ => py_repr v
  end.

(** [container[key]] with a string key. *)
Definition py_getitem (container : pyval) (key : string) : outcome pyval :=
  match container with
  | VDict d =>
      match dict_get d key with
      | Some v => Returned v
      | None => Raised (mk_exn KeyError (repr_string key))
      end
  | VList _ =>
      Raised (mk_exn TypeError "list indices must be integers or slices, not str")
  | VStr _ =>
      Raised (mk_exn TypeError "string indices must be integers, not 'str'")
  | _ =>
      Raised (mk_exn TypeError
                ("'" ++ type_name container ++ "' object is not subscriptable"))
  end.

End Py.

(** ** calculator.py *)

Module Calculator.
Import PyFloat PyStr Py.

(** *** Global constants *)

Definition DEFAULT_TARIFF : float := 1699.53.
Definition COST_PER_KWP : Z := 12390000.
Definition LOSS_FACTOR : float := 0.85.
Definition PANEL_WATT_PEAK : Z := 650.
Definition PANEL_AREA_SQM : float := 2.71.

(** *** The network, as [get_pvout_annual] sees it *)

(** A response: its status line and what [r.json()] does. *)
Record response : Type := mk_response {
  status_code : Z;
  reason : string;
  json : outcome pyval
}.

(** [requests.get(url, timeout=12)]: a response, or the exception raised
    (no connection, timeout, ...). *)
Definition network : Type := string -> outcome response.

(** [r.raise_for_status()] raises [HTTPError] on a 4xx or 5xx status and on
    no other. *)
Definition raise_for_status (url : string) (r : response) : outcome unit :=
  if (400 <=? status_code r) && (status_code r <? 500) then
    Raised (mk_exn RequestException
              (str_of_Z (status_code r) ++ " Client Error: " ++ reason r
               ++ " for url: " ++ url))
  else if (500 <=? status_code r) && (status_code r <? 600) then
    Raised (mk_exn RequestException
              (str_of_Z (status_code r) ++ " Server Error: " ++ reason r
               ++ " for url: " ++ url))
  else Returned tt.

Definition pvgis_url (latitude longitude loss slope azimuth : pyval) : string :=
  "https://re.jrc.ec.europa.eu/api/PVcalc?"
  ++ "lat=" ++ py_str latitude ++ "&lon=" ++ py_str longitude
  ++ "&peakpower=1&loss=" ++ py_str loss
  ++ "&slope=" ++ py_str slope ++ "&azimuth=" ++ py_str azimuth
  ++ "&outputformat=json".

(** [data["outputs"]["totals"]["fixed"]["E_y"]]. *)
Definition get_E_y (data : pyval) : outcome pyval :=
  a <- py_getitem data "outputs" ;;
  b <- py_getitem a "totals" ;;
  c <- py_getitem b "fixed" ;;
  py_getitem c "E_y".

(** The body of the outer [try] of [get_pvout_annual]; the inner [try]
    around the subscripts is the [match]. *)
Definition get_pvout_annual_try (net : network)
    (latitude longitude loss slope azimuth : pyval) : outcome pydict :=
  let url := pvgis_url latitude longitude loss slope azimuth in
  r <- net url ;;
  _ <- raise_for_status url r ;;
  data <- json r ;;
  match get_E_y data with
  | Raised _ => Returned [("error", VStr "PVGIS response missing E_y value.")]
  | Returned pvout_value =>
      f <- py_float pvout_value ;;
      Returned
        [("pvout_numeric", VFloat f);
         ("pvout_formatted",
          VStr (replace_char "." "," (py_str (VFloat (py_round f 1)))))]
  end.

Definition get_pvout_annual (net : network)
    (latitude longitude loss slope azimuth : pyval) : pydict :=
  match get_pvout_annual_try net latitude longitude loss slope azimuth with
  | Returned d => d
  | Raised e =>
      if is_request_exception e
      then [("error", VStr ("PVGIS request error: " ++ exn_str e))]
      else [("error", VStr ("Unexpected error while fetching PVOUT: " ++ exn_str e))]
  end.

(** The defaults of [loss], [slope] and [azimuth]. *)
Definition default_loss : pyval := VInt 14.
Definition default_slope : pyval := VInt 0.
Definition default_azimuth : pyval := VInt 0.

(** *** [calculate_solar_economics] *)

(** Line 64: [float(tarif_listrik) if tarif_listrik and
    float(tarif_listrik) > 0 else DEFAULT_TARIFF]. *)
Definition effective_tariff (tarif_listrik : pyval) : outcome float :=
  if py_truthy tarif_listrik then
    t <- py_float tarif_listrik ;;
    if (0 <? t)%float then py_float tarif_listrik else Returned DEFAULT_TARIFF
  else Returned DEFAULT_TARIFF.

(** Line 65: [float(tagihan_listrik) / tdl if float(tdl) != 0 else 0.0]. *)
Definition guarded_kebutuhan (tdl : float) (tagihan_listrik : pyval)
    : outcome float :=
  if negb (tdl =? 0)%float
  then (b <- py_float tagihan_listrik ;; float_div b tdl)
  else Returned 0%float.

(** The body of the [try]. *)
Definition calculate_solar_economics_try
    (pvout_annual tagihan_listrik tarif_listrik penghematan_persen : pyval)
    : outcome pydict :=
  tdl <- effective_tariff tarif_listrik ;;
  kebutuhan_energi_bulanan <- guarded_kebutuhan tdl tagihan_listrik ;;
  p <- py_float penghematan_persen ;;
  penghematan_desimal <- float_div p 100 ;;
  let target_produksi_bulanan :=
    (kebutuhan_energi_bulanan * penghematan_desimal)%float in
  pv <- py_float pvout_annual ;;
  pv12 <- float_div pv 12 ;;
  let pvout_monthly_effective := (pv12 * LOSS_FACTOR)%float in
  if (pvout_monthly_effective =? 0)%float then
    Returned [("error", VStr "PVOut tahunan tidak valid (0) atau LOSS_FACTOR=0.")]
  else
    kapasitas_kwp <- float_div target_produksi_bulanan pvout_monthly_effective ;;
    let total_investasi := (kapasitas_kwp * float_of_Z COST_PER_KWP)%float in
    let penghematan_tahunan_uang :=
      (target_produksi_bulanan * 12 * tdl)%float in
    bep_tahun <-
      (if (0 <? penghematan_tahunan_uang)%float
       then float_div total_investasi penghematan_tahunan_uang
       else Returned infinity) ;;
    jumlah_panel <-
      (if (0 <? kapasitas_kwp)%float
       then (q <- float_div (kapasitas_kwp * 1000)%float
                            (float_of_Z PANEL_WATT_PEAK) ;;
             math_ceil q)
       else Returned 0) ;;
    n <- int_to_float jumlah_panel ;;
    let estimasi_area := (n * PANEL_AREA_SQM)%float in
    let produksi_kwh_bulanan := target_produksi_bulanan in
    Returned
      [("status", VStr "success");
       ("TDL_Used", VFloat (py_round tdl 2));
       ("PVOut_Annual", VFloat (py_round pv 1));
       ("PVOUT_Bulanan_Efektif", VFloat (py_round pvout_monthly_effective 4));
       ("Kebutuhan_kWh_Bulanan", VFloat (py_round kebutuhan_energi_bulanan 2));
       ("Kapasitas_kWp", VFloat (py_round kapasitas_kwp 2));
       ("Produksi_kWh_Bulanan", VFloat (py_round produksi_kwh_bulanan 4));
       ("Total_Investasi", VFloat (py_round total_investasi 0));
       ("Penghematan_Tahunan_Rp", VFloat (py_round penghematan_tahunan_uang 0));
       ("BEP_Tahun",
        if negb (bep_tahun =? infinity)%float
        then VFloat (py_round bep_tahun 1) else VStr "Inf");
       ("Jumlah_Panel", VInt jumlah_panel);
       ("Estimasi_Area_m2", VFloat (py_round estimasi_area 2));
       ("LOSS_FACTOR", VFloat LOSS_FACTOR)].

Definition calculate_solar_economics
    (pvout_annual tagihan_listrik tarif_listrik penghematan_persen : pyval)
    : pydict :=
  match calculate_solar_economics_try
          pvout_annual tagihan_listrik tarif_listrik penghematan_persen with
  | Returned d => d
  | Raised e =>
      [("error", VStr ("Kesalahan perhitungan finansial: " ++ exn_str e))]
  end.

End Calculator.

(** ** The vocabulary of the specification *)

Module Spec.
Import PyFloat PyStr Py Calculator.
Local Open Scope float_scope.

(** *** Signs of doubles *)

(** The sign bit of a double that is not NaN ([true] is minus). *)
Definition sf_sign (x : spec_float) : option bool :=
  match x with
  | S754_nan => None
  | S754_zero s | S754_infinity s | S754_finite s _ _ => Some s
  end.

(** [x] is NaN or has sign [s]: what is known of a product or a quotient
    of signed operands, which overflow and [inf * 0] may turn into NaN. *)
Definition maybe_sign (s : bool) (x : spec_float) : Prop :=
  x = S754_nan \/ sf_sign x = Some s.

Definition fsign (s : bool) (x : float) : Prop := maybe_sign s (Prim2SF x).

(** *** The values the body binds

    Lines 65-80, as functions of the four floats the coercions of the
    arguments return: the yield [pv], the bill, the effective tariff [tdl]
    and the savings percentage [pct]. *)

Section Quantities.
Variables pv bill tdl pct : float.

Definition kebutuhan_energi_bulanan : float := bill / tdl.

Definition penghematan_desimal : float := pct / 100.

Definition target_produksi_bulanan : float :=
  kebutuhan_energi_bulanan * penghematan_desimal.

Definition pvout_monthly_effective : float := pv / 12 * LOSS_FACTOR.

Definition kapasitas_kwp : float :=
  target_produksi_bulanan / pvout_monthly_effective.

Definition total_investasi : float := kapasitas_kwp * float_of_Z COST_PER_KWP.

Definition penghematan_tahunan_uang : float :=
  target_produksi_bulanan * 12 * tdl.

Definition bep_tahun : float :=
  if 0 <? penghematan_tahunan_uang
  then total_investasi / penghematan_tahunan_uang else infinity.

(** The argument of [math.ceil] on line 79. *)
Definition panel_quotient : float :=
  kapasitas_kwp * 1000 / float_of_Z PANEL_WATT_PEAK.

Definition jumlah_panel : outcome Z :=
  if 0 <? kapasitas_kwp then math_ceil panel_quotient else Returned 0%Z.

(** The record of lines 83-97 for a panel count [n]. *)
Definition success_record (n : Z) : pydict :=
  [("status", VStr "success");
   ("TDL_Used", VFloat (py_round tdl 2));
   ("PVOut_Annual", VFloat (py_round pv 1));
   ("PVOUT_Bulanan_Efektif", VFloat (py_round pvout_monthly_effective 4));
   ("Kebutuhan_kWh_Bulanan", VFloat (py_round kebutuhan_energi_bulanan 2));
   ("Kapasitas_kWp", VFloat (py_round kapasitas_kwp 2));
   ("Produksi_kWh_Bulanan", VFloat (py_round target_produksi_bulanan 4));
   ("Total_Investasi", VFloat (py_round total_investasi 0));
   ("Penghematan_Tahunan_Rp", VFloat (py_round penghematan_tahunan_uang 0));
   ("BEP_Tahun",
    if negb (bep_tahun =? infinity)
    then VFloat (py_round bep_tahun 1) else VStr "Inf");
   ("Jumlah_Panel", VInt n);
   ("Estimasi_Area_m2", VFloat (py_round (float_of_Z n * PANEL_AREA_SQM) 2));
   ("LOSS_FACTOR", VFloat LOSS_FACTOR)].

End Quantities.

(** *** Results *)

Definition zero_yield_error : pydict :=
  [("error", VStr "PVOut tahunan tidak valid (0) atau LOSS_FACTOR=0.")].

Definition calc_error (e : pyexn) : pydict :=
  [("error", VStr ("Kesalahan perhitungan finansial: " ++ exn_str e))].

(** A success result carries the status ["success"]. *)
Definition is_success (r : pydict) : Prop :=
  dict_get r "status" = Some (VStr "success").

(** A failure is the one-entry dict [{"error": msg}] with a message. *)
Definition is_failure (r : pydict) : Prop :=
  exists msg, r = [("error", VStr msg)] /\ String.length msg <> 0%nat.

(** The status and the twelve derived fields, in the order of the record. *)
Definition success_keys : list string :=
  ["status"; "TDL_Used"; "PVOut_Annual"; "PVOUT_Bulanan_Efektif";
   "Kebutuhan_kWh_Bulanan"; "Kapasitas_kWp"; "Produksi_kWh_Bulanan";
   "Total_Investasi"; "Penghematan_Tahunan_Rp"; "BEP_Tahun"; "Jumlah_Panel";
   "Estimasi_Area_m2"; "LOSS_FACTOR"].

(** A tariff that was not provided: [None] or an empty value. *)
Definition not_provided (t : pyval) : bool :=
  match t with
  | VNone | VStr EmptyString | VList [] | VDict [] => true
  | _ => false
  end.

(** Every call either has four floats to work on, or raises in a coercion. *)
Inductive coerced (a b c d : pyval) : Type :=
| Coerced (pv bill tdl pct : float)
    (Ha : py_float a = Returned pv) (Hb : py_float b = Returned bill)
    (Hc : effective_tariff c = Returned tdl) (Hd : py_float d = Returned pct)
| NotCoerced (e : pyexn)
    (H : calculate_solar_economics_try a b c d = Raised e).

(** The three shapes of a result of [calculate_solar_economics]. *)
Inductive result_shape (a b c d : pyval) (r : pydict) : Prop :=
| ShapeRaised (e : pyexn)
    (Hr : r = calc_error e)
| ShapeZeroYield (pv : float)
    (Ha : py_float a = Returned pv)
    (Hz : (pvout_monthly_effective pv =? 0) = true)
    (Hr : r = zero_yield_error)
| ShapeSuccess (pv bill tdl pct : float) (n : Z)
    (Ha : py_float a = Returned pv) (Hb : py_float b = Returned bill)
    (Hc : effective_tariff c = Returned tdl) (Hd : py_float d = Returned pct)
    (Hz : (pvout_monthly_effective pv =? 0) = false)
    (Hn : jumlah_panel pv bill tdl pct = Returned n)
    (Hr : r = success_record pv bill tdl pct n).

(** *** The lookup *)

(** The value at a path of keys through nested dicts, if there is one. *)
Fixpoint lookup_path (path : list string) (v : pyval) : option pyval :=
  match path with
  | [] => Some v
  | k :: rest =>
      match v with
      | VDict d =>
          match dict_get d k with
          | Some x => lookup_path rest x
          | None => None
          end
      | _ => None
      end
  end.

Definition E_y_path : list string := ["outputs"; "totals"; "fixed"; "E_y"].

(** The statuses [raise_for_status] raises on. *)
Definition http_error_status (r : response) : bool :=
  (400 <=? status_code r)%Z && (status_code r <? 600)%Z.

(** A response body with a yield of 1234.56 kWh/kWp. *)
Definition sample_body : pyval :=
  VDict [("outputs",
          VDict [("totals",
                  VDict [("fixed", VDict [("E_y", VFloat 1234.56)])])])].

(** *** Bounded checks *)

Fixpoint all_below (n : nat) (p : Z -> bool) : bool :=
  match n with
  | O => true
  | S m => p (Z.of_nat m) && all_below m p
  end.

(** The rounded area of [n] panels is the double of the decimal
    [n * 2.71]. *)
Definition area_exact (n : Z) : bool :=
  PrimFloat.Leibniz.eqb
    (py_round (float_of_Z n * PANEL_AREA_SQM) 2)
    (nearest_float false (271 * n) 100).

End Spec.

(** ** The results of the two functions, named

    The dictionaries the [return] statements build, and the panel count of
    line 79 as a total function, for statements about whole results. *)

Module Outcomes.
Import PyFloat PyStr Py Calculator Spec.
Local Open Scope float_scope.

(** *** Results of [get_pvout_annual] *)

(** Lines 38-41: the success dictionary for the yield [f = float(E_y)]. *)
Definition lookup_success (f : float) : pydict :=
  [("pvout_numeric", VFloat f);
   ("pvout_formatted",
    VStr (replace_char "." "," (float_repr (py_round f 1))))].

(** Line 44. *)
Definition request_error (e : pyexn) : pydict :=
  [("error", VStr ("PVGIS request error: " ++ exn_str e))].

(** Line 46. *)
Definition unexpected_error (e : pyexn) : pydict :=
  [("error", VStr ("Unexpected error while fetching PVOUT: " ++ exn_str e))].

(** Line 36. *)
Definition missing_error : pydict :=
  [("error", VStr "PVGIS response missing E_y value.")].

(** How the two [except] clauses of lines 43-46 report an exception. *)
Definition report (e : pyexn) : pydict :=
  if is_request_exception e then request_error e else unexpected_error e.

(** What the lookup does, by what the network and the body hold: the six
    ways through lines 19-46. *)
Inductive lookup_case (net : network) (url : string) (r : pydict) : Prop :=
| GetRaised (e : pyexn)
    (Hnet : net url = Raised e)
    (Hr : r = report e)
| ErrorStatus (resp : response) (e : pyexn)
    (Hnet : net url = Returned resp)
    (Hstatus : http_error_status resp = true)
    (He : is_request_exception e = true)
    (Hr : r = request_error e)
| JsonRaised (resp : response) (e : pyexn)
    (Hnet : net url = Returned resp)
    (Hstatus : http_error_status resp = false)
    (Hjson : json resp = Raised e)
    (Hr : r = report e)
| PathMissing (resp : response) (data : pyval)
    (Hnet : net url = Returned resp)
    (Hstatus : http_error_status resp = false)
    (Hjson : json resp = Returned data)
    (Hpath : lookup_path E_y_path data = None)
    (Hr : r = missing_error)
| NotANumber (resp : response) (data v : pyval) (e : pyexn)
    (Hnet : net url = Returned resp)
    (Hstatus : http_error_status resp = false)
    (Hjson : json resp = Returned data)
    (Hpath : lookup_path E_y_path data = Some v)
    (Hfloat : py_float v = Raised e)
    (Hr : r = unexpected_error e)
| YieldFound (resp : response) (data v : pyval) (f : float)
    (Hnet : net url = Returned resp)
    (Hstatus : http_error_status resp = false)
    (Hjson : json resp = Returned data)
    (Hpath : lookup_path E_y_path data = Some v)
    (Hfloat : py_float v = Returned f)
    (Hr : r = lookup_success f).

(** *** Results of [calculate_solar_economics] *)

(** What [math.ceil] raises on an infinite argument. *)
Definition ceil_overflow : pyexn :=
  mk_exn OverflowError "cannot convert float infinity to integer".

Definition ceil_or_zero (x : float) : Z :=
  match ceil_Z x with
  | Some n => n
  | None => 0%Z
  end.

(** Line 79 where it returns: the ceiling of the quotient for a positive
    capacity, zero otherwise. *)
Definition panel_count (pv bill tdl pct : float) : Z :=
  if 0 <? kapasitas_kwp pv bill tdl pct
  then ceil_or_zero (panel_quotient pv bill tdl pct) else 0%Z.

(** The field [k] of [r] is a float and [x < 0] is false for it. *)
Definition not_negative_field (r : pydict) (k : string) : Prop :=
  exists x, dict_get r k = Some (VFloat x) /\ (x <? 0) = false.

(** The fields of a success result that are always floats. *)
Definition amount_fields : list string :=
  ["TDL_Used"; "PVOut_Annual"; "PVOUT_Bulanan_Efektif";
   "Kebutuhan_kWh_Bulanan"; "Kapasitas_kWp"; "Produksi_kWh_Bulanan";
   "Total_Investasi"; "Penghematan_Tahunan_Rp"; "Estimasi_Area_m2";
   "LOSS_FACTOR"].

(** *** Classes of binary64 values *)

Definition sf_is_zero (x : spec_float) : Prop :=
  match x with
  | S754_zero _ => True
  | _ => False
  end.

Definition sf_zero_or_nan (x : spec_float) : Prop :=
  match x with
  | S754_zero _ | S754_nan => True
  | _ => False
  end.

(** Neither infinite nor NaN. *)
Definition sf_finite (x : spec_float) : Prop :=
  match x with
  | S754_zero _ | S754_finite _ _ _ => True
  | _ => False
  end.

(** Where an exception caught on line 99 was raised: by the first [float]
    that rejects its argument, in the order the body calls them, or by
    [math.ceil] on line 79. *)
Inductive raised_by (a b c d : pyval) (e : pyexn) : Prop :=
| TariffRejected
    (Ht : py_truthy c = true)
    (Hc : py_float c = Raised e)
| BillRejected (tdl : float)
    (Hc : effective_tariff c = Returned tdl)
    (Hb : py_float b = Raised e)
| PercentRejected (tdl bill : float)
    (Hc : effective_tariff c = Returned tdl)
    (Hb : py_float b = Returned bill)
    (Hd : py_float d = Raised e)
| YieldRejected (tdl bill pct : float)
    (Hc : effective_tariff c = Returned tdl)
    (Hb : py_float b = Returned bill)
    (Hd : py_float d = Returned pct)
    (Ha : py_float a = Raised e)
| CeilOverflow (pv bill tdl pct : float)
    (Ha : py_float a = Returned pv)
    (Hb : py_float b = Returned bill)
    (Hc : effective_tariff c = Returned tdl)
    (Hd : py_float d = Returned pct)
    (Hz : (pvout_monthly_effective pv =? 0) = false)
    (Hk : (0 <? kapasitas_kwp pv bill tdl pct) = true)
    (Hq : (panel_quotient pv bill tdl pct =? infinity) = true)
    (He : e = ceil_overflow).

End Outcomes.

(** ** Facts about binary64 arithmetic

    Read off the bit-level specification of the primitive operations:
    rounding keeps the sign it is given, so products and quotients have the
    sign of their operands whatever the rounding does. *)

Module FloatFacts.
Import PyFloat Spec.

(** *** Rounding keeps signs *)

Lemma shr_1_nonneg r : 0 <= shr_m r -> 0 <= shr_m (shr_1 r).
Proof.
  destruct r as [m b c]; simpl; intros H.
  destruct m as [|p|p]; [simpl; lia| |lia].
  destruct p; simpl; lia.
Qed.

Lemma iter_pos_shr_1_nonneg p :
  forall r, 0 <= shr_m r -> 0 <= shr_m (iter_pos shr_1 p r).
Proof.
  induction p as [p IH|p IH|]; intros r H; simpl.
  - apply IH, IH, shr_1_nonneg, H.
  - apply IH, IH, H.
  - apply shr_1_nonneg, H.
Qed.

Lemma shr_fexp_nonneg m e l :
  0 <= m -> 0 <= shr_m (fst (shr_fexp prec emax m e l)).
Proof.
  intros H. unfold shr_fexp, shr.
  assert (H0 : 0 <= shr_m (shr_record_of_loc m l))
    by (destruct l as [|[]]; exact H).
  destruct (fexp prec emax (Zdigits2 m + e) - e); simpl; auto.
  apply iter_pos_shr_1_nonneg, H0.
Qed.

Lemma round_nearest_even_nonneg m l : 0 <= m -> 0 <= round_nearest_even m l.
Proof.
  intros H. destruct l as [|[]]; simpl; try lia. destruct (Z.even m); lia.
Qed.

Lemma binary_round_aux_sign s m e l :
  0 <= m -> sf_sign (binary_round_aux prec emax s m e l) = Some s.
Proof.
  intros H. unfold binary_round_aux.
  pose proof (shr_fexp_nonneg m e l H) as H1.
  destruct (shr_fexp prec emax m e l) as [r1 e1]. simpl in H1.
  pose proof (shr_fexp_nonneg _ e1 loc_Exact
                (round_nearest_even_nonneg _ (loc_of_shr_record r1) H1)) as H2.
  destruct (shr_fexp prec emax _ e1 loc_Exact) as [r2 e2]. simpl in H2.
  destruct (shr_m r2) as [|p|p]; [reflexivity| |lia].
  destruct (e2 <=? emax - prec); reflexivity.
Qed.

Lemma binary_round_sign s m e : sf_sign (binary_round prec emax s m e) = Some s.
Proof.
  unfold binary_round. destruct (shl_align _ _ _) as [mz ez].
  apply binary_round_aux_sign. lia.
Qed.

Lemma binary_normalize_sign z :
  0 <= z -> sf_sign (binary_normalize prec emax z 0 false) = Some false.
Proof.
  intros H. destruct z as [|p|p]; simpl; [reflexivity| |lia].
  apply binary_round_sign.
Qed.

Lemma SFldexp_sign x e : sf_sign (SFldexp prec emax x e) = sf_sign x.
Proof. destruct x; simpl; try reflexivity. apply binary_round_sign. Qed.

Lemma SFopp_sign x s : sf_sign x = Some s -> sf_sign (SFopp x) = Some (negb s).
Proof.
  destruct x; simpl; intros H; try discriminate; injection H as <-; reflexivity.
Qed.

(** *** Products and quotients *)

Lemma SFmul_sign a b x y :
  maybe_sign a x -> maybe_sign b y ->
  maybe_sign (xorb a b) (SFmul prec emax x y).
Proof.
  intros [->|Hx] [->|Hy];
    try (left; destruct x; reflexivity); try (left; reflexivity).
  destruct x as [sx|sx| |sx mx ex], y as [sy|sy| |sy my ey]; simpl in *;
    try discriminate; injection Hx as <-; injection Hy as <-;
    try (right; reflexivity); try (left; reflexivity).
  right. apply binary_round_aux_sign. lia.
Qed.

Lemma SFdiv_core_nonneg mx ex my ey :
  0 <= fst (fst (SFdiv_core_binary prec emax (Zpos mx) ex (Zpos my) ey)).
Proof.
  unfold SFdiv_core_binary.
  set (m' := match _ - _ - _ with Z0 => _ | Zpos _ => _ | Zneg _ => _ end).
  assert (Hm : 0 <= m').
  { subst m'. destruct (_ - _ - _); try lia. apply Z.shiftl_nonneg. lia. }
  pose proof (Z.div_pos m' (Zpos my) Hm ltac:(lia)) as Hq.
  unfold Z.div in Hq. destruct (Z.div_eucl m' (Zpos my)) as [q r]. exact Hq.
Qed.

Lemma SFdiv_finite_sign sx mx ex sy my ey :
  sf_sign (SFdiv prec emax (S754_finite sx mx ex) (S754_finite sy my ey))
  = Some (xorb sx sy).
Proof.
  simpl. pose proof (SFdiv_core_nonneg mx ex my ey) as H.
  destruct (SFdiv_core_binary _ _ _ _ _ _) as [[mz ez] lz].
  apply binary_round_aux_sign, H.
Qed.

Lemma SFdiv_sign a b x y :
  maybe_sign a x -> maybe_sign b y ->
  maybe_sign (xorb a b) (SFdiv prec emax x y).
Proof.
  intros [->|Hx] [->|Hy];
    try (left; destruct x; reflexivity); try (left; reflexivity).
  destruct x as [sx|sx| |sx mx ex], y as [sy|sy| |sy my ey];
    try discriminate; simpl in Hx, Hy; injection Hx as <-; injection Hy as <-;
    try (right; apply SFdiv_finite_sign);
    try (right; reflexivity); left; reflexivity.
Qed.

(** *** The conversions of the built-ins *)

Lemma SF2Prim_sign r s :
  sf_sign r = Some s -> sf_sign (Prim2SF (SF2Prim r)) = Some s.
Proof.
  destruct r as [s'|s'| |s' m e]; simpl; intros H; try discriminate;
    injection H as <-.
  - destruct s'; reflexivity.
  - destruct s'; reflexivity.
  - assert (Hf : sf_sign
                   (Prim2SF (Z.ldexp (of_uint63 (Uint63Axioms.of_Z (Zpos m))) e))
                 = Some false).
    { rewrite Z_ldexp_spec, SFldexp_sign, of_uint63_spec.
      apply binary_normalize_sign, Uint63.to_Z_bounded. }
    destruct s'; [|exact Hf].
    rewrite opp_spec. apply (SFopp_sign _ false), Hf.
Qed.

Lemma nearest_float_sign s n p :
  sf_sign (Prim2SF (nearest_float s n p)) = Some s.
Proof.
  unfold nearest_float.
  destruct n as [|n|n]; try (destruct s; reflexivity).
  destruct p as [|p|p]; try (destruct s; reflexivity).
  apply SF2Prim_sign. rewrite SFdiv_finite_sign. destruct s; reflexivity.
Qed.

Lemma py_round_sign x nd :
  sf_sign (Prim2SF (py_round x nd)) = sf_sign (Prim2SF x).
Proof.
  unfold py_round. destruct (Prim2SF x) eqn:E; try (rewrite E; reflexivity).
  apply nearest_float_sign.
Qed.

(** *** Magnitudes *)

Lemma digits2_pos_bound m : Zpos m < 2 ^ Zpos (digits2_pos m).
Proof.
  induction m as [p IH|p IH|]; simpl digits2_pos.
  - rewrite Pos2Z.inj_succ, Z.pow_succ_r by lia. lia.
  - rewrite Pos2Z.inj_succ, Z.pow_succ_r by lia. lia.
  - reflexivity.
Qed.

Lemma valid_mantissa_bound s m e :
  valid_binary (S754_finite s m e) = true -> Zpos m < 2 ^ 53 /\ e <= 971.
Proof.
  unfold valid_binary, bounded, canonical_mantissa, fexp.
  intros H. apply andb_prop in H as [H1 H2].
  apply Z.eqb_eq in H1. apply Z.leb_le in H2.
  change (emax - prec) with 971 in H2. change prec with 53 in H1.
  split; [|exact H2].
  pose proof (digits2_pos_bound m) as Hd.
  assert (Zpos (digits2_pos m) <= 53) by lia.
  eapply Z.lt_le_trans; [exact Hd|]. apply Z.pow_le_mono_r; lia.
Qed.

(** The ceiling of a finite double is an integer that has a double. *)
Lemma ceil_Z_bound x z : ceil_Z x = Some z -> Z.abs z < float_overflow_bound.
Proof.
  unfold ceil_Z. pose proof (Prim2SF_valid x) as Hv.
  destruct (Prim2SF x) as [s|s| |s m e]; try discriminate.
  - intros H; injection H as <-. reflexivity.
  - apply valid_mantissa_bound in Hv as [Hm He].
    intros H; injection H as <-.
    assert (Hb : 2 ^ 53 * 2 ^ 971 - 2 ^ 971 < float_overflow_bound)
      by reflexivity.
    destruct (0 <=? e) eqn:E.
    + apply Z.leb_le in E.
      assert (Hp : 0 < 2 ^ e <= 2 ^ 971).
      { split; [apply Z.pow_pos_nonneg; lia | apply Z.pow_le_mono_r; lia]. }
      assert (Zpos m * 2 ^ e <= (2 ^ 53 - 1) * 2 ^ 971).
      { apply Z.mul_le_mono_nonneg; lia. }
      destruct s; rewrite Z.abs_mul, (Z.abs_eq (2 ^ e)) by lia;
        simpl Z.abs; lia.
    + apply Z.leb_gt in E.
      assert (Hp : 0 < 2 ^ (- e)) by (apply Z.pow_pos_nonneg; lia).
      assert (H53 : 2 ^ 53 < float_overflow_bound) by reflexivity.
      destruct s.
      * change (- Z.neg m) with (Zpos m).
        pose proof (Z.div_pos (Zpos m) (2 ^ (- e)) ltac:(lia) Hp).
        pose proof (Z.div_le_upper_bound (Zpos m) (2 ^ (- e)) (Zpos m) Hp
                      ltac:(nia)).
        lia.
      * change (- Z.pos m) with (Zneg m).
        pose proof (Z.div_lt_upper_bound (Zneg m) (2 ^ (- e)) 0 Hp ltac:(lia)).
        pose proof (Z.div_le_lower_bound (Zneg m) (2 ^ (- e)) (Zneg m) Hp
                      ltac:(nia)).
        lia.
Qed.

(** *** Comparisons of primitive doubles *)

Local Open Scope float_scope.

Lemma Prim2SF_zero : Prim2SF 0 = S754_zero false.
Proof. reflexivity. Qed.

(** Comparisons with zero, read on the specification of the operand. *)
Ltac by_spec_cases x :=
  rewrite ?FloatAxioms.ltb_spec, ?FloatAxioms.leb_spec, ?FloatAxioms.eqb_spec,
    ?Prim2SF_zero;
  unfold SFltb, SFleb, SFeqb;
  destruct (Prim2SF x) as [[]|[]| |[] ? ?]; simpl;
  try discriminate; try reflexivity.

Lemma gt0_sign x : (0 <? x) = true -> sf_sign (Prim2SF x) = Some false.
Proof. by_spec_cases x. Qed.

Lemma gt0_nonzero x : (0 <? x) = true -> (x =? 0) = false.
Proof. by_spec_cases x. Qed.

Lemma lt0_sign x : (x <? 0) = true -> sf_sign (Prim2SF x) = Some true.
Proof. by_spec_cases x. Qed.

Lemma leb0_not_gt0 x : (x <=? 0) = true -> (0 <? x) = false.
Proof. by_spec_cases x. Qed.

Lemma sign_nonneg x : sf_sign (Prim2SF x) = Some false -> (0 <=? x) = true.
Proof. by_spec_cases x. Qed.

Lemma eq0_is_zero x : (x =? 0) = true -> x = 0 \/ x = neg_zero.
Proof.
  intros H. rewrite <- (SF2Prim_Prim2SF x). revert H.
  by_spec_cases x; intros _; [right|left]; reflexivity.
Qed.

Lemma fsign_true_not_gt0 x : fsign true x -> (0 <? x) = false.
Proof.
  unfold fsign, maybe_sign.
  by_spec_cases x; intros [H|H]; discriminate.
Qed.

Lemma fsign_true_not_infinity x : fsign true x -> (x =? infinity) = false.
Proof.
  unfold fsign, maybe_sign. rewrite FloatAxioms.eqb_spec.
  change (Prim2SF infinity) with (S754_infinity false). unfold SFeqb.
  destruct (Prim2SF x) as [[]|[]| |[] m e]; simpl; intros [H|H];
    try discriminate; reflexivity.
Qed.

Lemma is_finite_cases x :
  is_finite x = true ->
  match Prim2SF x with
  | S754_zero _ | S754_finite _ _ _ => True
  | _ => False
  end.
Proof.
  unfold is_finite, is_nan, is_infinity.
  rewrite !FloatAxioms.eqb_spec, abs_spec.
  change (Prim2SF infinity) with (S754_infinity false).
  destruct (Prim2SF x) as [s|s| |s m e]; simpl; intros H; try exact I;
    try destruct s; cbv in H; discriminate.
Qed.

(** *** Signs of primitive doubles *)

Lemma fsign_of_gt0 x : (0 <? x) = true -> fsign false x.
Proof. intros H. right. apply gt0_sign, H. Qed.

Lemma fsign_of_lt0 x : (x <? 0) = true -> fsign true x.
Proof. intros H. right. apply lt0_sign, H. Qed.

Lemma fsign_const x s : sf_sign (Prim2SF x) = Some s -> fsign s x.
Proof. intros H. right. exact H. Qed.

Lemma mul_fsign a b x y : fsign a x -> fsign b y -> fsign (xorb a b) (x * y).
Proof. unfold fsign. rewrite mul_spec. apply SFmul_sign. Qed.

Lemma div_fsign a b x y : fsign a x -> fsign b y -> fsign (xorb a b) (x / y).
Proof. unfold fsign. rewrite div_spec. apply SFdiv_sign. Qed.

Lemma py_round_fsign s x n : fsign s x -> fsign s (py_round x n).
Proof.
  unfold fsign, maybe_sign. intros [H|H].
  - left. unfold py_round. rewrite H. exact H.
  - right. rewrite py_round_sign. exact H.
Qed.

End FloatFacts.

(** ** Facts about [calculate_solar_economics] *)

Module EconomicsFacts.
Import PyFloat PyStr Py Calculator Spec FloatFacts.
Local Open Scope float_scope.

(** *** The effective tariff *)

Lemma effective_tariff_positive t tdl :
  effective_tariff t = Returned tdl -> (0 <? tdl) = true.
Proof.
  unfold effective_tariff.
  destruct (py_truthy t); [|intros H; injection H as <-; reflexivity].
  destruct (py_float t) as [f|e] eqn:E; simpl; [|discriminate].
  destruct (0 <? f) eqn:Hf; intros H; injection H as <-;
    [exact Hf | reflexivity].
Qed.

(** The tariff is the default or the caller's. *)
Lemma effective_tariff_origin t tdl :
  effective_tariff t = Returned tdl ->
  tdl = DEFAULT_TARIFF \/ py_float t = Returned tdl.
Proof.
  unfold effective_tariff.
  destruct (py_truthy t); [|intros H; injection H as <-; left; reflexivity].
  destruct (py_float t) as [f|e] eqn:E; simpl; [|discriminate].
  destruct (0 <? f); intros H; injection H as <-;
    [right | left]; reflexivity.
Qed.

(** A value whose float is positive is true. *)
Lemma truthy_of_positive c f :
  py_float c = Returned f -> (0 <? f) = true -> py_truthy c = true.
Proof.
  destruct c as [|b|z|x|s|l|d]; simpl; try discriminate.
  - destruct b; [reflexivity|]. intros H; injection H as <-. discriminate.
  - unfold int_to_float.
    destruct (Z.abs z <? float_overflow_bound)%Z; [|discriminate].
    intros H; injection H as <-.
    destruct z; [discriminate|reflexivity|reflexivity].
  - intros H; injection H as <-. intros H.
    rewrite (gt0_nonzero _ H). reflexivity.
  - destruct s; [discriminate|reflexivity].
Qed.

Lemma effective_tariff_given c f :
  py_float c = Returned f -> (0 <? f) = true -> effective_tariff c = Returned f.
Proof.
  intros Hc Hf. unfold effective_tariff.
  rewrite (truthy_of_positive c f Hc Hf), Hc. cbn [bind].
  rewrite Hf. reflexivity.
Qed.

Lemma effective_tariff_default t :
  not_provided t = true
  \/ (exists f, py_float t = Returned f /\ (f <=? 0) = true) ->
  effective_tariff t = Returned DEFAULT_TARIFF.
Proof.
  intros [H|(f & Hf & Hle)]; unfold effective_tariff.
  - destruct t as [|b|z|x|s|l|d]; try discriminate; try reflexivity.
    + destruct s; [reflexivity|discriminate].
    + destruct l; [reflexivity|discriminate].
    + destruct d; [reflexivity|discriminate].
  - destruct (py_truthy t); [|reflexivity].
    rewrite Hf. cbn [bind]. rewrite (leb0_not_gt0 f Hle). reflexivity.
Qed.

(** *** The body, once the arguments are floats *)

Lemma float_div_nonzero a b :
  (b =? 0) = false -> float_div a b = Returned (a / b).
Proof. unfold float_div. intros ->. reflexivity. Qed.

Lemma float_div_panel_watt a :
  float_div a (float_of_Z PANEL_WATT_PEAK)
  = Returned (a / float_of_Z PANEL_WATT_PEAK).
Proof. reflexivity. Qed.

Lemma guarded_kebutuhan_eq b tdl bill :
  (tdl =? 0) = false -> py_float b = Returned bill ->
  guarded_kebutuhan tdl b = Returned (bill / tdl).
Proof.
  intros Hz Hb. unfold guarded_kebutuhan. rewrite Hz, Hb. cbn [negb bind].
  apply float_div_nonzero, Hz.
Qed.

Lemma int_to_float_ceil x z :
  math_ceil x = Returned z -> int_to_float z = Returned (float_of_Z z).
Proof.
  unfold math_ceil, int_to_float.
  destruct (ceil_Z x) as [z'|] eqn:E.
  - intros H; injection H as <-. apply ceil_Z_bound in E.
    apply Z.ltb_lt in E. rewrite E. reflexivity.
  - destruct (is_nan x); discriminate.
Qed.

Lemma int_to_float_panels pv bill tdl pct n :
  jumlah_panel pv bill tdl pct = Returned n ->
  int_to_float n = Returned (float_of_Z n).
Proof.
  unfold jumlah_panel. destruct (0 <? kapasitas_kwp pv bill tdl pct).
  - apply int_to_float_ceil.
  - intros H; injection H as <-. reflexivity.
Qed.

Lemma bep_tahun_eq pv bill tdl pct :
  (if 0 <? penghematan_tahunan_uang bill tdl pct
   then float_div (total_investasi pv bill tdl pct)
                  (penghematan_tahunan_uang bill tdl pct)
   else Returned infinity)
  = Returned (bep_tahun pv bill tdl pct).
Proof.
  unfold bep_tahun.
  destruct (0 <? penghematan_tahunan_uang bill tdl pct) eqn:Hs; [|reflexivity].
  apply float_div_nonzero, gt0_nonzero, Hs.
Qed.

(** With four floats in hand, the body is the zero-yield test followed by
    the panel count: no division raises. *)
Lemma economics_try_eq a b c d pv bill tdl pct :
  py_float a = Returned pv -> py_float b = Returned bill ->
  effective_tariff c = Returned tdl -> py_float d = Returned pct ->
  calculate_solar_economics_try a b c d =
    if pvout_monthly_effective pv =? 0 then Returned zero_yield_error
    else n <- jumlah_panel pv bill tdl pct ;;
         Returned (success_record pv bill tdl pct n).
Proof.
  intros Ha Hb Hc Hd. unfold calculate_solar_economics_try.
  rewrite Hc. cbn [bind].
  pose proof (gt0_nonzero _ (effective_tariff_positive _ _ Hc)) as Hz.
  rewrite (guarded_kebutuhan_eq b tdl bill Hz Hb). cbn [bind].
  rewrite Hd. cbn [bind].
  rewrite (float_div_nonzero pct 100) by reflexivity. cbn [bind].
  rewrite Ha. cbn [bind].
  rewrite (float_div_nonzero pv 12) by reflexivity. cbn [bind].
  fold (pvout_monthly_effective pv).
  destruct (pvout_monthly_effective pv =? 0) eqn:Hp; [reflexivity|].
  rewrite float_div_nonzero by exact Hp. cbn [bind].
  fold (kebutuhan_energi_bulanan bill tdl) (penghematan_desimal pct).
  fold (target_produksi_bulanan bill tdl pct).
  fold (kapasitas_kwp pv bill tdl pct).
  fold (total_investasi pv bill tdl pct).
  fold (penghematan_tahunan_uang bill tdl pct).
  rewrite bep_tahun_eq. cbn [bind].
  rewrite float_div_panel_watt. cbn [bind].
  fold (panel_quotient pv bill tdl pct).
  fold (jumlah_panel pv bill tdl pct).
  destruct (jumlah_panel pv bill tdl pct) as [n|e] eqn:Hn; [|reflexivity].
  cbn [bind]. rewrite (int_to_float_panels _ _ _ _ _ Hn). reflexivity.
Qed.

Lemma coerce_inputs a b c d : coerced a b c d.
Proof.
  destruct (effective_tariff c) as [tdl|e] eqn:Hc.
  2:{ apply (NotCoerced _ _ _ _ e). unfold calculate_solar_economics_try.
      rewrite Hc. reflexivity. }
  pose proof (gt0_nonzero _ (effective_tariff_positive _ _ Hc)) as Hz.
  destruct (py_float b) as [bill|e] eqn:Hb.
  2:{ apply (NotCoerced _ _ _ _ e).
      unfold calculate_solar_economics_try, guarded_kebutuhan.
      rewrite Hc. cbn [bind]. rewrite Hz, Hb. reflexivity. }
  destruct (py_float d) as [pct|e] eqn:Hd.
  2:{ apply (NotCoerced _ _ _ _ e). unfold calculate_solar_economics_try.
      rewrite Hc. cbn [bind].
      rewrite (guarded_kebutuhan_eq b tdl bill Hz Hb). cbn [bind].
      rewrite Hd. reflexivity. }
  destruct (py_float a) as [pv|e] eqn:Ha.
  2:{ apply (NotCoerced _ _ _ _ e). unfold calculate_solar_economics_try.
      rewrite Hc. cbn [bind].
      rewrite (guarded_kebutuhan_eq b tdl bill Hz Hb). cbn [bind].
      rewrite Hd. cbn [bind].
      rewrite (float_div_nonzero pct 100) by reflexivity. cbn [bind].
      rewrite Ha. reflexivity. }
  exact (Coerced _ _ _ _ pv bill tdl pct Ha Hb Hc Hd).
Qed.

Lemma economics_shape a b c d :
  result_shape a b c d (calculate_solar_economics a b c d).
Proof.
  unfold calculate_solar_economics.
  destruct (coerce_inputs a b c d) as [pv bill tdl pct Ha Hb Hc Hd|e H].
  - rewrite (economics_try_eq a b c d pv bill tdl pct Ha Hb Hc Hd).
    destruct (pvout_monthly_effective pv =? 0) eqn:Hz.
    + eapply ShapeZeroYield; eauto.
    + destruct (jumlah_panel pv bill tdl pct) as [n|e] eqn:Hn; cbn [bind].
      * eapply ShapeSuccess; eauto.
      * eapply ShapeRaised; reflexivity.
  - rewrite H. eapply ShapeRaised; reflexivity.
Qed.

Lemma success_shape a b c d :
  is_success (calculate_solar_economics a b c d) ->
  exists pv bill tdl pct n,
    py_float a = Returned pv /\ py_float b = Returned bill /\
    effective_tariff c = Returned tdl /\ py_float d = Returned pct /\
    (pvout_monthly_effective pv =? 0) = false /\
    jumlah_panel pv bill tdl pct = Returned n /\
    calculate_solar_economics a b c d = success_record pv bill tdl pct n.
Proof.
  intros Hs.
  destruct (economics_shape a b c d)
    as [e Hr|pv Ha Hz Hr|pv bill tdl pct n Ha Hb Hc Hd Hz Hn Hr].
  - rewrite Hr in Hs. discriminate.
  - rewrite Hr in Hs. discriminate.
  - exists pv, bill, tdl, pct, n. auto 10.
Qed.

Lemma TDL_Used_field a b c d tdl :
  effective_tariff c = Returned tdl ->
  is_success (calculate_solar_economics a b c d) ->
  dict_get (calculate_solar_economics a b c d) "TDL_Used"
  = Some (VFloat (py_round tdl 2)).
Proof.
  intros Hc Hs.
  destruct (success_shape a b c d Hs)
    as (pv & bill & tdl' & pct & n & Ha & Hb & Hc' & Hd & Hz & Hn & Hr).
  rewrite Hc in Hc'. injection Hc' as <-. rewrite Hr. reflexivity.
Qed.

(** *** Signs of the quantities *)

Lemma target_fsign bill tdl pct :
  (0 <? bill) = true -> (0 <? tdl) = true -> (0 <? pct) = true ->
  fsign false (target_produksi_bulanan bill tdl pct).
Proof.
  intros Hb Ht Hp.
  unfold target_produksi_bulanan, kebutuhan_energi_bulanan, penghematan_desimal.
  apply (mul_fsign false false).
  - apply (div_fsign false false); apply fsign_of_gt0; assumption.
  - apply (div_fsign false false); [apply fsign_of_gt0; assumption|].
    apply fsign_const. reflexivity.
Qed.

Lemma pme_fsign s pv : fsign s pv -> fsign s (pvout_monthly_effective pv).
Proof.
  intros H. unfold pvout_monthly_effective.
  replace s with (xorb (xorb s false) false) by (destruct s; reflexivity).
  apply mul_fsign; [apply div_fsign; [exact H|]|];
    apply fsign_const; reflexivity.
Qed.

Lemma kapasitas_fsign s pv bill tdl pct :
  fsign s pv -> (0 <? bill) = true -> (0 <? tdl) = true -> (0 <? pct) = true ->
  fsign s (kapasitas_kwp pv bill tdl pct).
Proof.
  intros Hv Hb Ht Hp. unfold kapasitas_kwp.
  change s with (xorb false s).
  apply div_fsign; [apply target_fsign; assumption | apply pme_fsign, Hv].
Qed.

Lemma bep_fsign_negative pv bill tdl pct :
  fsign true (kapasitas_kwp pv bill tdl pct) ->
  (0 <? penghematan_tahunan_uang bill tdl pct) = true ->
  fsign true (bep_tahun pv bill tdl pct).
Proof.
  intros Hk Hs. unfold bep_tahun. rewrite Hs. unfold total_investasi.
  change true with (xorb (xorb true false) false).
  apply div_fsign; [|apply fsign_of_gt0, Hs].
  apply mul_fsign; [exact Hk|]. apply fsign_const. reflexivity.
Qed.

(** *** Finite panel quotients *)

Lemma finite_quotient_finite_kapasitas k :
  is_finite (k * 1000 / float_of_Z PANEL_WATT_PEAK) = true ->
  match Prim2SF k with
  | S754_zero _ | S754_finite _ _ _ => True
  | _ => False
  end.
Proof.
  intros H. apply is_finite_cases in H. revert H.
  rewrite div_spec, mul_spec.
  destruct (Prim2SF k) as [s|s| |s m e]; try (intros; exact I).
  - destruct s; exact (fun H => H).
  - exact (fun H => H).
Qed.

Lemma math_ceil_finite x :
  is_finite x = true -> exists z, math_ceil x = Returned z.
Proof.
  intros H. apply is_finite_cases in H. unfold math_ceil, ceil_Z.
  destruct (Prim2SF x); try contradiction; eexists; reflexivity.
Qed.

(** *** A zero yield *)

Lemma zero_yield x :
  (x =? 0) = true -> (pvout_monthly_effective x =? 0) = true.
Proof. intros H. destruct (eq0_is_zero x H) as [-> | ->]; reflexivity. Qed.

(** *** Bounded checks *)

Lemma all_below_spec p n :
  all_below n p = true ->
  forall k, (0 <= k < Z.of_nat n)%Z -> p k = true.
Proof.
  induction n as [|n IH]; intros H k Hk; [lia|].
  simpl in H. apply andb_prop in H as [H1 H2].
  destruct (Z.eq_dec k (Z.of_nat n)) as [->|Hne]; [exact H1|].
  apply IH; [exact H2|lia].
Qed.

(** Up to 2000 panels the rounded area is the double of the decimal. *)
Lemma area_exact_below_2000 : all_below 2000 area_exact = true.
Proof. vm_compute. reflexivity. Qed.

Lemma area_exact_small n :
  (0 <= n < 2000)%Z ->
  py_round (float_of_Z n * PANEL_AREA_SQM) 2
  = nearest_float false (271 * n) 100.
Proof.
  intros H. apply FloatAxioms.Leibniz.eqb_spec.
  apply (all_below_spec area_exact 2000 area_exact_below_2000 n).
  exact H.
Qed.

End EconomicsFacts.

(** ** Facts about [get_pvout_annual] *)

Module LookupFacts.
Import PyStr Py Calculator Spec.

Lemma starts_with_app needle post : starts_with needle (needle ++ post) = true.
Proof.
  induction needle as [|x n IH]; simpl; [reflexivity|].
  rewrite Ascii.eqb_refl. exact IH.
Qed.

Lemma starts_with_contains needle hay :
  starts_with needle hay = true -> contains needle hay = true.
Proof. destruct hay; simpl; intros ->; reflexivity. Qed.

Lemma contains_after pre needle post :
  contains needle (pre ++ needle ++ post) = true.
Proof.
  induction pre as [|c pre IH]; simpl.
  - apply starts_with_contains, starts_with_app.
  - rewrite IH. apply orb_true_r.
Qed.

Lemma py_getitem_lookup v k :
  match py_getitem v k with
  | Returned x => lookup_path [k] v = Some x
  | Raised _ => lookup_path [k] v = None
  end.
Proof.
  destruct v as [|b|z|x|s|l|d]; simpl; try reflexivity.
  destruct (dict_get d k); reflexivity.
Qed.

Lemma lookup_path_step k rest v :
  lookup_path (k :: rest) v
  = match lookup_path [k] v with
    | Some x => lookup_path rest x
    | None => None
    end.
Proof.
  simpl. destruct v; try reflexivity. destruct (dict_get d k); reflexivity.
Qed.

(** The four subscripts raise exactly when the path is not there. *)
Lemma get_E_y_lookup data :
  match get_E_y data with
  | Returned x => lookup_path E_y_path data = Some x
  | Raised _ => lookup_path E_y_path data = None
  end.
Proof.
  unfold get_E_y, E_y_path.
  rewrite (lookup_path_step "outputs").
  pose proof (py_getitem_lookup data "outputs") as H1.
  destruct (py_getitem data "outputs") as [v1|e1]; rewrite H1; cbn [bind];
    [|reflexivity].
  rewrite (lookup_path_step "totals").
  pose proof (py_getitem_lookup v1 "totals") as H2.
  destruct (py_getitem v1 "totals") as [v2|e2]; rewrite H2; cbn [bind];
    [|reflexivity].
  rewrite (lookup_path_step "fixed").
  pose proof (py_getitem_lookup v2 "fixed") as H3.
  destruct (py_getitem v2 "fixed") as [v3|e3]; rewrite H3; cbn [bind];
    [|reflexivity].
  exact (py_getitem_lookup v3 "E_y").
Qed.

Lemma raise_for_status_error url r :
  http_error_status r = true ->
  exists e, raise_for_status url r = Raised e /\ is_request_exception e = true.
Proof.
  unfold http_error_status, raise_for_status. intros H.
  apply andb_prop in H as [H1 H2]. rewrite H1. cbn [andb].
  destruct (status_code r <? 500) eqn:E5.
  - eexists. split; reflexivity.
  - assert (H5 : (500 <=? status_code r) = true).
    { apply Z.leb_le. apply Z.ltb_ge in E5. exact E5. }
    rewrite H5, H2. eexists. split; reflexivity.
Qed.

Lemma raise_for_status_ok url r :
  http_error_status r = false -> raise_for_status url r = Returned tt.
Proof.
  unfold http_error_status, raise_for_status. intros H.
  destruct (400 <=? status_code r) eqn:E4; cbn [andb] in *.
  - rewrite H.
    assert (H5 : (status_code r <? 500) = false).
    { apply Z.ltb_ge. apply Z.ltb_ge in H. lia. }
    rewrite H5. destruct (500 <=? status_code r); reflexivity.
  - assert (H5 : (500 <=? status_code r) = false).
    { apply Z.leb_gt. apply Z.leb_gt in E4. lia. }
    rewrite H5. reflexivity.
Qed.

End LookupFacts.

(** ** Facts about whole results

    The panel count is never negative, zero and infinite operands go
    through the body as IEEE-754 says, and each function is a case
    analysis on what its inputs hold. *)

Module OutcomeFacts.
Import PyFloat PyStr Py Calculator Spec Outcomes.
Import FloatFacts EconomicsFacts LookupFacts.

Lemma SFmul_finite_r x a b m e :
  sf_sign x = Some a ->
  sf_sign (SFmul prec emax x (S754_finite b m e)) = Some (xorb a b).
Proof.
  destruct x as [s|s| |s mx ex]; simpl; intros H; try discriminate;
    injection H as <-; try reflexivity.
  apply binary_round_aux_sign. lia.
Qed.

Lemma SFdiv_finite_r x a b m e :
  sf_sign x = Some a ->
  sf_sign (SFdiv prec emax x (S754_finite b m e)) = Some (xorb a b).
Proof.
  destruct x as [s|s| |s mx ex]; intros H; try discriminate;
    [simpl in *; injection H as <-; reflexivity ..|].
  simpl in H. injection H as <-. apply SFdiv_finite_sign.
Qed.

Local Open Scope float_scope.

Lemma thousand_finite : exists m e, Prim2SF 1000 = S754_finite false m e.
Proof. eexists. eexists. vm_compute. reflexivity. Qed.

Lemma panel_watt_finite :
  exists m e, Prim2SF (float_of_Z PANEL_WATT_PEAK) = S754_finite false m e.
Proof. eexists. eexists. vm_compute. reflexivity. Qed.

Lemma panel_area_finite :
  exists m e, Prim2SF PANEL_AREA_SQM = S754_finite false m e.
Proof. eexists. eexists. vm_compute. reflexivity. Qed.

(** The panel quotient of a positive capacity is a number of sign plus. *)
Lemma quotient_sign k :
  (0 <? k) = true ->
  sf_sign (Prim2SF (k * 1000 / float_of_Z PANEL_WATT_PEAK)) = Some false.
Proof.
  intros H. apply gt0_sign in H.
  destruct thousand_finite as (m1 & e1 & E1).
  destruct panel_watt_finite as (m2 & e2 & E2).
  rewrite div_spec, mul_spec, E1, E2.
  apply (SFdiv_finite_r _ false false), (SFmul_finite_r _ false false), H.
Qed.

Lemma fsign_false_not_lt0 x : fsign false x -> (x <? 0) = false.
Proof.
  unfold fsign, maybe_sign.
  by_spec_cases x; intros [H|H]; discriminate.
Qed.

Lemma sign_false_not_lt0 x : sf_sign (Prim2SF x) = Some false -> (x <? 0) = false.
Proof. intros H. apply fsign_false_not_lt0. right. exact H. Qed.

Lemma ceil_Z_nonneg x n :
  sf_sign (Prim2SF x) = Some false -> ceil_Z x = Some n ->
  (0 <= n)%Z /\ ((0 <? x) = true -> (1 <= n)%Z).
Proof.
  unfold ceil_Z. rewrite FloatAxioms.ltb_spec, Prim2SF_zero.
  destruct (Prim2SF x) as [s|s| |s m e]; intros Hs Hn; try discriminate.
  - injection Hn as <-. split; [lia|]. destruct s; discriminate.
  - injection Hs as ->. injection Hn as <-.
    destruct (0 <=? e)%Z eqn:E; cbv beta iota.
    + apply Z.leb_le in E.
      assert (0 < 2 ^ e)%Z by (apply Z.pow_pos_nonneg; lia).
      destruct (2 ^ e)%Z; [lia | split; intros; lia | lia].
    + apply Z.leb_gt in E.
      assert (Hp : (0 < 2 ^ (- e))%Z) by (apply Z.pow_pos_nonneg; lia).
      change (- Z.pos m)%Z with (Z.neg m).
      pose proof (Z.div_lt_upper_bound (Z.neg m) (2 ^ (- e)) 0 Hp ltac:(lia)).
      split; intros; lia.
Qed.

Lemma math_ceil_of_positive q :
  sf_sign (Prim2SF q) = Some false ->
  math_ceil q =
    if q =? infinity then Raised ceil_overflow
    else Returned (ceil_or_zero q).
Proof.
  unfold math_ceil, ceil_or_zero, ceil_Z, is_nan.
  rewrite !FloatAxioms.eqb_spec.
  change (Prim2SF infinity) with (S754_infinity false). unfold SFeqb.
  destruct (Prim2SF q) as [s|s| |s m e]; simpl; intros H; try discriminate;
    try reflexivity.
  injection H as ->. reflexivity.
Qed.

Lemma jumlah_panel_eq pv bill tdl pct :
  jumlah_panel pv bill tdl pct =
    if (0 <? kapasitas_kwp pv bill tdl pct)
       && (panel_quotient pv bill tdl pct =? infinity)
    then Raised ceil_overflow
    else Returned (panel_count pv bill tdl pct).
Proof.
  unfold jumlah_panel, panel_count.
  destruct (0 <? kapasitas_kwp pv bill tdl pct) eqn:Hk; [|reflexivity].
  cbn [andb]. apply math_ceil_of_positive, quotient_sign, Hk.
Qed.

Lemma jumlah_panel_bounds pv bill tdl pct n :
  jumlah_panel pv bill tdl pct = Returned n ->
  (0 <= n)%Z
  /\ ((0 <? kapasitas_kwp pv bill tdl pct) = false -> n = 0%Z)
  /\ ((0 <? kapasitas_kwp pv bill tdl pct) = true ->
      (0 <? panel_quotient pv bill tdl pct) = true -> (1 <= n)%Z).
Proof.
  unfold jumlah_panel.
  destruct (0 <? kapasitas_kwp pv bill tdl pct) eqn:Hk.
  - pose proof (quotient_sign _ Hk) as Hs.
    fold (panel_quotient pv bill tdl pct) in Hs.
    unfold math_ceil.
    destruct (ceil_Z (panel_quotient pv bill tdl pct)) as [z|] eqn:E.
    + intros H; injection H as <-.
      destruct (ceil_Z_nonneg _ z Hs E) as [H0 H1].
      split; [exact H0|]. split; [discriminate|]. intros _. exact H1.
    + destruct (is_nan _); discriminate.
  - intros H; injection H as <-. split; [lia|]. split; [reflexivity|discriminate].
Qed.

Lemma float_of_Z_sign n :
  (0 <= n)%Z -> sf_sign (Prim2SF (float_of_Z n)) = Some false.
Proof.
  intros H. unfold float_of_Z. apply SF2Prim_sign, binary_normalize_sign, H.
Qed.

Lemma area_sign n :
  (0 <= n)%Z ->
  sf_sign (Prim2SF (py_round (float_of_Z n * PANEL_AREA_SQM) 2)) = Some false.
Proof.
  intros H. rewrite py_round_sign, mul_spec.
  destruct panel_area_finite as (m & e & E). rewrite E.
  apply (SFmul_finite_r _ false false), float_of_Z_sign, H.
Qed.

(** *** Zero and NaN operands *)

Lemma eq0_spec x : (x =? 0) = true -> sf_is_zero (Prim2SF x).
Proof. by_spec_cases x; intros; try exact I. Qed.

Lemma zero_or_nan_not_gt0 x : sf_zero_or_nan (Prim2SF x) -> (0 <? x) = false.
Proof. by_spec_cases x; intros; try contradiction. Qed.

Lemma zero_is_eq0 x : sf_is_zero (Prim2SF x) -> (x =? 0) = true.
Proof. by_spec_cases x; intros; try contradiction. Qed.

Lemma nonzero_spec x : (x =? 0) = false -> ~ sf_is_zero (Prim2SF x).
Proof. by_spec_cases x; try (intros _ H; exact H). Qed.

Lemma finite_spec x :
  is_finite x = true ->
  match Prim2SF x with
  | S754_zero _ | S754_finite _ _ _ => True
  | _ => False
  end.
Proof. apply is_finite_cases. Qed.

Lemma gt0_spec x :
  (0 <? x) = true ->
  match Prim2SF x with
  | S754_infinity false | S754_finite false _ _ => True
  | _ => False
  end.
Proof. by_spec_cases x; intros; try exact I. Qed.

Lemma zero_div_positive x y :
  sf_is_zero (Prim2SF x) -> (0 <? y) = true -> sf_is_zero (Prim2SF (x / y)).
Proof.
  intros Hx Hy. apply gt0_spec in Hy. rewrite div_spec.
  destruct (Prim2SF x); try contradiction.
  destruct (Prim2SF y) as [|[]| |[] ? ?]; try contradiction; exact I.
Qed.

Lemma zero_div_const x m e :
  sf_is_zero (Prim2SF x) ->
  sf_is_zero (SFdiv prec emax (Prim2SF x) (S754_finite false m e)).
Proof. destruct (Prim2SF x); try contradiction; intros; exact I. Qed.

Lemma zero_mul_finite x y :
  (sf_is_zero (Prim2SF x) /\ is_finite y = true)
  \/ (is_finite x = true /\ sf_is_zero (Prim2SF y)) ->
  sf_is_zero (Prim2SF (x * y)).
Proof.
  rewrite mul_spec. intros [[Hx Hy]|[Hx Hy]].
  - apply finite_spec in Hy.
    destruct (Prim2SF x); try contradiction.
    destruct (Prim2SF y); try contradiction; exact I.
  - apply finite_spec in Hx.
    destruct (Prim2SF y); try contradiction.
    destruct (Prim2SF x); try contradiction; exact I.
Qed.

Lemma zero_div_any x y :
  sf_is_zero (Prim2SF x) -> sf_zero_or_nan (Prim2SF (x / y)).
Proof.
  intros Hx. rewrite div_spec.
  destruct (Prim2SF x); try contradiction.
  destruct (Prim2SF y); exact I.
Qed.

Lemma zero_mul_any x y :
  sf_is_zero (Prim2SF x) -> sf_zero_or_nan (Prim2SF (x * y)).
Proof.
  intros Hx. rewrite mul_spec.
  destruct (Prim2SF x); try contradiction.
  destruct (Prim2SF y); exact I.
Qed.

Lemma zero_mul_const x m e :
  sf_is_zero (Prim2SF x) ->
  sf_is_zero (SFmul prec emax (Prim2SF x) (S754_finite false m e)).
Proof. destruct (Prim2SF x); try contradiction; intros; exact I. Qed.

Lemma hundred_finite : exists m e, Prim2SF 100 = S754_finite false m e.
Proof. eexists. eexists. vm_compute. reflexivity. Qed.

Lemma twelve_finite : exists m e, Prim2SF 12 = S754_finite false m e.
Proof. eexists. eexists. vm_compute. reflexivity. Qed.

(** Nothing to produce: a zero bill or a zero percentage. *)
Lemma target_zero bill tdl pct :
  (0 <? tdl) = true ->
  ((bill =? 0) = true /\ is_finite (pct / 100) = true)
  \/ ((pct =? 0) = true /\ is_finite (bill / tdl) = true) ->
  sf_is_zero (Prim2SF (target_produksi_bulanan bill tdl pct)).
Proof.
  intros Ht H.
  unfold target_produksi_bulanan, kebutuhan_energi_bulanan, penghematan_desimal.
  apply zero_mul_finite. destruct H as [[Hb Hp]|[Hp Hb]].
  - left. split; [|exact Hp]. apply zero_div_positive; [apply eq0_spec, Hb|exact Ht].
  - right. split; [exact Hb|]. rewrite div_spec.
    destruct hundred_finite as (m & e & E). rewrite E.
    apply zero_div_const, eq0_spec, Hp.
Qed.

Lemma is_nan_spec x : is_nan x = true -> x = nan.
Proof.
  unfold is_nan. rewrite FloatAxioms.eqb_spec. unfold SFeqb. intros H.
  rewrite <- (SF2Prim_Prim2SF x).
  destruct (Prim2SF x) as [[]|[]| |[] m e]; try reflexivity; simpl in H;
    try discriminate;
    rewrite Z.compare_refl, Pos.compare_cont_refl in H; discriminate.
Qed.

Lemma div_nan x : x / nan = nan.
Proof.
  apply Prim2SF_inj. rewrite div_spec.
  change (Prim2SF nan) with S754_nan. destruct (Prim2SF x); reflexivity.
Qed.

(** A bill and a percentage of opposite signs: nothing positive to produce. *)
Lemma target_fsign_negative bill tdl pct :
  (0 <? tdl) = true ->
  ((bill <? 0) = true /\ (0 <? pct) = true)
  \/ ((0 <? bill) = true /\ (pct <? 0) = true) ->
  fsign true (target_produksi_bulanan bill tdl pct).
Proof.
  intros Ht H.
  unfold target_produksi_bulanan, kebutuhan_energi_bulanan, penghematan_desimal.
  destruct H as [[Hb Hp]|[Hb Hp]].
  - apply (mul_fsign true false).
    + apply (div_fsign true false); [apply fsign_of_lt0, Hb|apply fsign_of_gt0, Ht].
    + apply (div_fsign false false); [apply fsign_of_gt0, Hp|].
      apply fsign_const. reflexivity.
  - apply (mul_fsign false true).
    + apply (div_fsign false false); apply fsign_of_gt0; assumption.
    + apply (div_fsign true false); [apply fsign_of_lt0, Hp|].
      apply fsign_const. reflexivity.
Qed.

(** *** Infinite operands *)

Lemma inf_div_finite x y :
  Prim2SF x = S754_infinity false -> (0 <? y) = true -> is_finite y = true ->
  Prim2SF (x / y) = S754_infinity false.
Proof.
  intros Hx Hy Hf. apply gt0_spec in Hy. apply finite_spec in Hf.
  rewrite div_spec, Hx.
  destruct (Prim2SF y) as [|[]| |[] ? ?]; try contradiction; reflexivity.
Qed.

Lemma inf_mul_positive x y :
  Prim2SF x = S754_infinity false -> (0 <? y) = true ->
  Prim2SF (x * y) = S754_infinity false.
Proof.
  intros Hx Hy. apply gt0_spec in Hy. rewrite mul_spec, Hx.
  destruct (Prim2SF y) as [|[]| |[] ? ?]; try contradiction; reflexivity.
Qed.

Lemma inf_is_gt0 x : Prim2SF x = S754_infinity false -> (0 <? x) = true.
Proof.
  intros H. rewrite FloatAxioms.ltb_spec, Prim2SF_zero, H. reflexivity.
Qed.

Lemma inf_is_infinity x : Prim2SF x = S754_infinity false -> (x =? infinity) = true.
Proof.
  intros H. rewrite FloatAxioms.eqb_spec, H. reflexivity.
Qed.

(** An infinite bill makes the panel quotient infinite. *)
Lemma infinite_bill_quotient pv tdl pct :
  (0 <? pvout_monthly_effective pv) = true ->
  is_finite (pvout_monthly_effective pv) = true ->
  (0 <? tdl) = true -> is_finite tdl = true ->
  (0 <? pct / 100) = true ->
  Prim2SF (kapasitas_kwp pv infinity tdl pct) = S754_infinity false
  /\ Prim2SF (panel_quotient pv infinity tdl pct) = S754_infinity false.
Proof.
  intros Hp Hpf Ht Htf Hd.
  assert (Hk : Prim2SF (kapasitas_kwp pv infinity tdl pct) = S754_infinity false).
  { unfold kapasitas_kwp, target_produksi_bulanan, kebutuhan_energi_bulanan,
      penghematan_desimal.
    apply inf_div_finite; [|exact Hp|exact Hpf].
    apply inf_mul_positive; [|exact Hd].
    apply inf_div_finite; [reflexivity|exact Ht|exact Htf]. }
  split; [exact Hk|]. unfold panel_quotient.
  apply inf_div_finite; [|reflexivity|reflexivity].
  apply inf_mul_positive; [exact Hk|reflexivity].
Qed.

(** The coercions fail in the order the body runs them. *)
Lemma tariff_error_first a b c d e :
  effective_tariff c = Raised e ->
  calculate_solar_economics a b c d = calc_error e.
Proof.
  intros Hc. unfold calculate_solar_economics, calculate_solar_economics_try.
  rewrite Hc. reflexivity.
Qed.

Lemma bill_error_second a b c d tdl e :
  effective_tariff c = Returned tdl -> py_float b = Raised e ->
  calculate_solar_economics a b c d = calc_error e.
Proof.
  intros Hc Hb.
  pose proof (gt0_nonzero _ (effective_tariff_positive _ _ Hc)) as Hz.
  unfold calculate_solar_economics, calculate_solar_economics_try,
    guarded_kebutuhan.
  rewrite Hc. cbn [bind]. rewrite Hz, Hb. reflexivity.
Qed.

Lemma percent_error_third a b c d tdl bill e :
  effective_tariff c = Returned tdl -> py_float b = Returned bill ->
  py_float d = Raised e ->
  calculate_solar_economics a b c d = calc_error e.
Proof.
  intros Hc Hb Hd.
  pose proof (gt0_nonzero _ (effective_tariff_positive _ _ Hc)) as Hz.
  unfold calculate_solar_economics, calculate_solar_economics_try.
  rewrite Hc. cbn [bind].
  rewrite (guarded_kebutuhan_eq b tdl bill Hz Hb). cbn [bind].
  rewrite Hd. reflexivity.
Qed.

Lemma yield_error_last a b c d tdl bill pct e :
  effective_tariff c = Returned tdl -> py_float b = Returned bill ->
  py_float d = Returned pct -> py_float a = Raised e ->
  calculate_solar_economics a b c d = calc_error e.
Proof.
  intros Hc Hb Hd Ha.
  pose proof (gt0_nonzero _ (effective_tariff_positive _ _ Hc)) as Hz.
  unfold calculate_solar_economics, calculate_solar_economics_try.
  rewrite Hc. cbn [bind].
  rewrite (guarded_kebutuhan_eq b tdl bill Hz Hb). cbn [bind].
  rewrite Hd. cbn [bind].
  rewrite (float_div_nonzero pct 100) by reflexivity. cbn [bind].
  rewrite Ha. reflexivity.
Qed.

(** The whole body once the four arguments are coerced. *)
Lemma economics_outcome a b c d pv bill tdl pct :
  py_float a = Returned pv -> py_float b = Returned bill ->
  effective_tariff c = Returned tdl -> py_float d = Returned pct ->
  calculate_solar_economics a b c d =
    if pvout_monthly_effective pv =? 0 then zero_yield_error
    else if (0 <? kapasitas_kwp pv bill tdl pct)
            && (panel_quotient pv bill tdl pct =? infinity)
         then calc_error ceil_overflow
         else success_record pv bill tdl pct (panel_count pv bill tdl pct).
Proof.
  intros Ha Hb Hc Hd. unfold calculate_solar_economics.
  rewrite (economics_try_eq a b c d pv bill tdl pct Ha Hb Hc Hd).
  destruct (pvout_monthly_effective pv =? 0); [reflexivity|].
  rewrite jumlah_panel_eq.
  destruct ((0 <? kapasitas_kwp pv bill tdl pct)
            && (panel_quotient pv bill tdl pct =? infinity)); reflexivity.
Qed.

Lemma falsy_float_not_positive t f :
  py_truthy t = false -> py_float t = Returned f -> (0 <? f) = false.
Proof.
  destruct t as [|b|z|x|s|l|d]; simpl; try discriminate.
  - intros -> H. injection H as <-. reflexivity.
  - unfold int_to_float. intros Hz.
    apply negb_false_iff, Z.eqb_eq in Hz. subst z. simpl.
    intros H. injection H as <-. reflexivity.
  - intros Hx H. injection H as <-.
    apply negb_false_iff in Hx. apply zero_or_nan_not_gt0.
    apply eq0_spec in Hx. destruct (Prim2SF x); try contradiction; exact I.
  - intros Hs. apply negb_false_iff, String.eqb_eq in Hs. subst s. discriminate.
Qed.

Lemma py_float_error_class v e :
  py_float v = Raised e -> is_request_exception e = false.
Proof.
  destruct v as [|b|z|x|s|l|d]; simpl; try discriminate;
    try (intros H; injection H as <-; reflexivity).
  - unfold int_to_float. destruct (Z.abs z <? float_overflow_bound)%Z;
      [discriminate|]. intros H; injection H as <-. reflexivity.
  - destruct (float_of_string s); [discriminate|].
    intros H; injection H as <-. reflexivity.
Qed.

Lemma lookup_cases net latitude longitude loss slope azimuth :
  lookup_case net (pvgis_url latitude longitude loss slope azimuth)
    (get_pvout_annual net latitude longitude loss slope azimuth).
Proof.
  unfold get_pvout_annual, get_pvout_annual_try.
  set (url := pvgis_url latitude longitude loss slope azimuth).
  destruct (net url) as [resp|e] eqn:Hnet; cbn [bind].
  2:{ eapply GetRaised; [exact Hnet|reflexivity]. }
  destruct (http_error_status resp) eqn:Hs.
  { destruct (raise_for_status_error url resp Hs) as (e & He & Hc).
    rewrite He. cbn [bind]. rewrite Hc.
    eapply ErrorStatus; eauto. }
  rewrite (raise_for_status_ok url resp Hs). cbn [bind].
  destruct (json resp) as [data|e] eqn:Hj; cbn [bind].
  2:{ eapply JsonRaised; eauto. }
  pose proof (get_E_y_lookup data) as Hg.
  destruct (get_E_y data) as [v|e0].
  2:{ eapply PathMissing; eauto. }
  destruct (py_float v) as [f|e] eqn:Hf; cbn [bind].
  - eapply YieldFound; eauto.
  - rewrite (py_float_error_class v e Hf). eapply NotANumber; eauto.
Qed.

Lemma has_char_replace a b s :
  Ascii.eqb b a = false -> has_char a (replace_char a b s) = false.
Proof.
  intros H. induction s as [|c s IH]; simpl; [reflexivity|].
  rewrite IH, orb_false_r. destruct (Ascii.eqb c a) eqn:E; [exact H|exact E].
Qed.

Lemma length_replace a b s :
  String.length (replace_char a b s) = String.length s.
Proof. induction s as [|c s IH]; simpl; [reflexivity|]. rewrite IH. reflexivity. Qed.

(** *** Negative yields: the sign bit survives *)

Lemma SFmul_finite_inv x y :
  sf_finite (SFmul prec emax x y) -> sf_finite x.
Proof.
  destruct x as [s|s| |s m e]; try (intros; exact I);
    destruct y as [s'|s'| |s' m' e']; simpl; intros H; exact H.
Qed.

Lemma SFdiv_sign_finite x y a b :
  sf_finite x -> sf_sign x = Some a -> sf_sign y = Some b ->
  ~ sf_is_zero y ->
  sf_sign (SFdiv prec emax x y) = Some (xorb a b).
Proof.
  intros Hf Hx Hy Hz.
  destruct x as [sx|sx| |sx mx ex]; try contradiction;
    destruct y as [sy|sy| |sy my ey]; try discriminate;
    try (exfalso; apply Hz; exact I);
    simpl in Hx, Hy; injection Hx as <-; injection Hy as <-;
    try reflexivity.
  apply SFdiv_finite_sign.
Qed.

Lemma finite_sf_finite x : is_finite x = true -> sf_finite (Prim2SF x).
Proof. apply is_finite_cases. Qed.

Lemma neg_zero_spec x : Prim2SF x = S754_zero true -> x = neg_zero.
Proof. intros H. apply Prim2SF_inj. rewrite H. reflexivity. Qed.

Lemma nan_spec x : Prim2SF x = S754_nan -> x = nan.
Proof. intros H. apply Prim2SF_inj. rewrite H. reflexivity. Qed.

(** A number whose sign bit is set is below zero, or it is -0.0. *)
Lemma sign_true_cases x :
  sf_sign (Prim2SF x) = Some true -> (x <? 0) = true \/ x = neg_zero.
Proof.
  intros H. rewrite FloatAxioms.ltb_spec, Prim2SF_zero.
  destruct (Prim2SF x) as [s|s| |s m e] eqn:E; simpl in H; try discriminate;
    injection H as ->.
  - right. apply neg_zero_spec, E.
  - left. reflexivity.
  - left. reflexivity.
Qed.

Lemma fsign_true_cases x :
  fsign true x -> x = nan \/ (x <? 0) = true \/ x = neg_zero.
Proof.
  intros [H|H]; [left; apply nan_spec, H|right; apply sign_true_cases, H].
Qed.

Lemma loss_factor_finite :
  exists m e, Prim2SF LOSS_FACTOR = S754_finite false m e.
Proof. eexists. eexists. vm_compute. reflexivity. Qed.

Lemma cost_finite :
  exists m e, Prim2SF (float_of_Z COST_PER_KWP) = S754_finite false m e.
Proof. eexists. eexists. vm_compute. reflexivity. Qed.

(** The effective monthly yield of a negative yield has its sign bit set. *)
Lemma pme_sign_negative pv :
  (pv <? 0) = true ->
  sf_sign (Prim2SF (pvout_monthly_effective pv)) = Some true.
Proof.
  intros H. apply lt0_sign in H. unfold pvout_monthly_effective.
  destruct twelve_finite as (m1 & e1 & E1).
  destruct loss_factor_finite as (m2 & e2 & E2).
  rewrite mul_spec, div_spec, E1, E2.
  apply (SFmul_finite_r _ true false), (SFdiv_finite_r _ true false), H.
Qed.

(** A finite production target keeps the capacity of a negative yield a
    number: its sign bit is set. *)
Lemma kapasitas_sign_negative pv bill tdl pct :
  (pv <? 0) = true -> (0 <? bill) = true -> (0 <? tdl) = true ->
  (0 <? pct) = true ->
  (pvout_monthly_effective pv =? 0) = false ->
  sf_finite (Prim2SF (target_produksi_bulanan bill tdl pct)) ->
  sf_sign (Prim2SF (kapasitas_kwp pv bill tdl pct)) = Some true.
Proof.
  intros Hpv Hb Ht Hp Hz Hf.
  unfold kapasitas_kwp. rewrite div_spec.
  apply (SFdiv_sign_finite _ _ false true).
  - exact Hf.
  - destruct (target_fsign bill tdl pct Hb Ht Hp) as [H|H]; [|exact H].
    rewrite H in Hf. contradiction.
  - apply pme_sign_negative, Hpv.
  - apply nonzero_spec, Hz.
Qed.

(** Finite savings come from a finite production target. *)
Lemma finite_savings_finite_target bill tdl pct :
  is_finite (penghematan_tahunan_uang bill tdl pct) = true ->
  sf_finite (Prim2SF (target_produksi_bulanan bill tdl pct)).
Proof.
  intros H. apply finite_sf_finite in H.
  unfold penghematan_tahunan_uang in H. rewrite !mul_spec in H.
  apply SFmul_finite_inv in H. apply SFmul_finite_inv in H. exact H.
Qed.

(** Finite positive savings and a finite target: the break-even time of a
    negative yield is a number whose sign bit is set. *)
Lemma bep_sign_negative pv bill tdl pct :
  (pv <? 0) = true -> (0 <? bill) = true -> (0 <? tdl) = true ->
  (0 <? pct) = true ->
  (pvout_monthly_effective pv =? 0) = false ->
  (0 <? penghematan_tahunan_uang bill tdl pct) = true ->
  is_finite (penghematan_tahunan_uang bill tdl pct) = true ->
  sf_sign (Prim2SF (bep_tahun pv bill tdl pct)) = Some true.
Proof.
  intros Hpv Hb Ht Hp Hz Hs Hf.
  pose proof (kapasitas_sign_negative pv bill tdl pct Hpv Hb Ht Hp Hz
                (finite_savings_finite_target bill tdl pct Hf)) as Hk.
  unfold bep_tahun. rewrite Hs. rewrite div_spec.
  apply gt0_spec in Hs. apply finite_sf_finite in Hf.
  destruct (Prim2SF (penghematan_tahunan_uang bill tdl pct))
    as [s|s| |s m e]; try contradiction.
  destruct s; [contradiction|].
  apply (SFdiv_finite_r _ true false).
  unfold total_investasi. rewrite mul_spec.
  destruct cost_finite as (m1 & e1 & E1). rewrite E1.
  apply (SFmul_finite_r _ true false), Hk.
Qed.

(** *** Where a caught exception comes from *)

Lemma effective_tariff_raised c e :
  effective_tariff c = Raised e ->
  py_truthy c = true /\ py_float c = Raised e.
Proof.
  unfold effective_tariff. destruct (py_truthy c); [|discriminate].
  destruct (py_float c) as [f|e'] eqn:E; cbn [bind].
  - destruct (0 <? f)%float; discriminate.
  - intros H. injection H as <-. split; reflexivity.
Qed.

Lemma try_raised_by a b c d e :
  calculate_solar_economics_try a b c d = Raised e -> raised_by a b c d e.
Proof.
  destruct (effective_tariff c) as [tdl|e0] eqn:Hc.
  2:{ unfold calculate_solar_economics_try. rewrite Hc. cbn [bind].
      intros H. injection H as <-.
      destruct (effective_tariff_raised c e0 Hc) as [Ht Hf].
      exact (TariffRejected a b c d e0 Ht Hf). }
  pose proof (gt0_nonzero _ (effective_tariff_positive _ _ Hc)) as Hz.
  destruct (py_float b) as [bill|e0] eqn:Hb.
  2:{ unfold calculate_solar_economics_try, guarded_kebutuhan.
      rewrite Hc. cbn [bind]. rewrite Hz, Hb. cbn [negb bind].
      intros H. injection H as <-.
      exact (BillRejected a b c d e0 tdl Hc Hb). }
  destruct (py_float d) as [pct|e0] eqn:Hd.
  2:{ unfold calculate_solar_economics_try. rewrite Hc. cbn [bind].
      rewrite (guarded_kebutuhan_eq b tdl bill Hz Hb). cbn [bind].
      rewrite Hd. cbn [bind]. intros H. injection H as <-.
      exact (PercentRejected a b c d e0 tdl bill Hc Hb Hd). }
  destruct (py_float a) as [pv|e0] eqn:Ha.
  2:{ unfold calculate_solar_economics_try. rewrite Hc. cbn [bind].
      rewrite (guarded_kebutuhan_eq b tdl bill Hz Hb). cbn [bind].
      rewrite Hd. cbn [bind].
      rewrite (float_div_nonzero pct 100) by reflexivity. cbn [bind].
      rewrite Ha. cbn [bind]. intros H. injection H as <-.
      exact (YieldRejected a b c d e0 tdl bill pct Hc Hb Hd Ha). }
  rewrite (economics_try_eq a b c d pv bill tdl pct Ha Hb Hc Hd).
  destruct (pvout_monthly_effective pv =? 0)%float eqn:Hp; [discriminate|].
  rewrite jumlah_panel_eq.
  destruct (0 <? kapasitas_kwp pv bill tdl pct)%float eqn:Hk;
    cbn [andb bind]; [|discriminate].
  destruct (panel_quotient pv bill tdl pct =? infinity)%float eqn:Hq;
    cbn [bind]; [|discriminate].
  intros H. injection H as <-.
  exact (CeilOverflow a b c d ceil_overflow pv bill tdl pct
           Ha Hb Hc Hd Hp Hk Hq eq_refl).
Qed.

End OutcomeFacts.

(** ** The built-ins and the two functions on concrete inputs *)

Module Examples.
Import PyFloat PyStr Py Calculator Spec.
Local Open Scope float_scope.

(** [round] works on the binary value: 2.675 is below the tie and 0.125 is
    on it; the sign survives a result of zero. *)
Example round_examples :
  py_round 2.675 2 = 2.67 /\ py_round 0.125 2 = 0.12
  /\ py_round 0.375 2 = 0.38 /\ py_round 2.5 0 = 2
  /\ py_round (-0.001) 2 = neg_zero /\ py_round infinity 1 = infinity
  /\ py_round 1699.53 2 = 1699.53.
Proof. repeat split; vm_compute; reflexivity. Qed.

Example ceil_examples :
  math_ceil 9.65 = Returned 10%Z /\ math_ceil (-0.5) = Returned 0%Z
  /\ math_ceil 1e22 = Returned (10 ^ 22)%Z
  /\ math_ceil infinity
     = Raised (mk_exn OverflowError "cannot convert float infinity to integer")
  /\ math_ceil nan
     = Raised (mk_exn ValueError "cannot convert float NaN to integer").
Proof. repeat split; vm_compute; reflexivity. Qed.

Example int_to_float_examples :
  int_to_float 12390000 = Returned 12390000
  /\ int_to_float (2 ^ 53 + 1) = Returned 9007199254740992
  /\ int_to_float (2 ^ 1024 - 2 ^ 970 - 1) = Returned 1.7976931348623157e308
  /\ int_to_float (2 ^ 1024 - 2 ^ 970)
     = Raised (mk_exn OverflowError "int too large to convert to float").
Proof. repeat split; vm_compute; reflexivity. Qed.

Example float_of_string_examples :
  float_of_string " 1_000.5 " = Some 1000.5
  /\ float_of_string "1e3" = Some 1000
  /\ float_of_string "-Infinity" = Some neg_infinity
  /\ float_of_string ".5" = Some 0.5
  /\ float_of_string "1e999" = Some infinity
  /\ float_of_string "" = None
  /\ float_of_string "1__0" = None
  /\ float_of_string "1e" = None
  /\ float_of_string "1,5" = None.
Proof. repeat split; vm_compute; reflexivity. Qed.

Example float_repr_examples :
  float_repr 1234.6 = "1234.6" /\ float_repr 1500 = "1500.0"
  /\ float_repr 0.1 = "0.1" /\ float_repr (1 / 3) = "0.3333333333333333"
  /\ float_repr 1e16 = "1e+16" /\ float_repr 0.00001 = "1e-05"
  /\ float_repr 5e-324 = "5e-324" /\ float_repr neg_zero = "-0.0"
  /\ float_repr (3 * 2.71) = "8.129999999999999".
Proof. repeat split; vm_compute; reflexivity. Qed.

Example py_str_examples :
  py_str (VList [VInt 1; VStr "a"; VNone; VBool true; VFloat 1.5])
  = "[1, 'a', None, True, 1.5]"
  /\ py_str (VDict [("k", VList [VInt (-2)])]) = "{'k': [-2]}"
  /\ py_str (VStr "a'b") = "a'b"
  /\ pvgis_url (VFloat (-6.2)) (VFloat 106.8)
       default_loss default_slope default_azimuth
     = "https://re.jrc.ec.europa.eu/api/PVcalc?lat=-6.2&lon=106.8&peakpower=1&loss=14&slope=0&azimuth=0&outputformat=json".
Proof. repeat split; vm_compute; reflexivity. Qed.

(** The example of the specification: a need of 666.67 kWh, an effective
    monthly yield of 106.25, a capacity of 6.27 kWp and 10 panels. *)
Example economics_example :
  calculate_solar_economics
    (VFloat 1500) (VFloat 1000000) (VFloat 1500) (VFloat 100)
  = [("status", VStr "success");
     ("TDL_Used", VFloat 1500);
     ("PVOut_Annual", VFloat 1500);
     ("PVOUT_Bulanan_Efektif", VFloat 106.25);
     ("Kebutuhan_kWh_Bulanan", VFloat 666.67);
     ("Kapasitas_kWp", VFloat 6.27);
     ("Produksi_kWh_Bulanan", VFloat 666.6667);
     ("Total_Investasi", VFloat 77741176);
     ("Penghematan_Tahunan_Rp", VFloat 12000000);
     ("BEP_Tahun", VFloat 6.5);
     ("Jumlah_Panel", VInt 10);
     ("Estimasi_Area_m2", VFloat 27.1);
     ("LOSS_FACTOR", VFloat 0.85)].
Proof. vm_compute. reflexivity. Qed.

(** Strings and integers are coerced, a missing tariff is the default, and
    what does not coerce is reported. *)
Example coercion_examples :
  dict_get
    (calculate_solar_economics (VInt 1500) (VStr "1000000") VNone (VInt 50))
    "Kapasitas_kWp" = Some (VFloat 2.77)
  /\ calculate_solar_economics (VInt 1500) (VStr "abc") VNone (VInt 50)
     = [("error",
         VStr "Kesalahan perhitungan finansial: could not convert string to float: 'abc'")]
  /\ calculate_solar_economics (VInt 1500) (VInt 1) (VList []) VNone
     = [("error",
         VStr "Kesalahan perhitungan finansial: float() argument must be a string or a real number, not 'NoneType'")]
  /\ calculate_solar_economics
       (VFloat 1500) (VFloat infinity) (VFloat 1500) (VFloat 100)
     = [("error",
         VStr "Kesalahan perhitungan finansial: cannot convert float infinity to integer")].
Proof. repeat split; vm_compute; reflexivity. Qed.

Example lookup_examples :
  get_pvout_annual
    (fun _ => Returned (mk_response 200 "OK" (Returned sample_body)))
    (VFloat (-6.2)) (VFloat 106.8) default_loss default_slope default_azimuth
  = [("pvout_numeric", VFloat 1234.56); ("pvout_formatted", VStr "1234,6")]
  /\ get_pvout_annual
       (fun _ => Returned (mk_response 200 "OK"
          (Returned (VDict [("outputs", VDict [("totals", VDict [("fixed",
             VDict [("E_y", VNone)])])])]))))
       (VFloat (-6.2)) (VFloat 106.8) default_loss default_slope default_azimuth
     = [("error",
         VStr "Unexpected error while fetching PVOUT: float() argument must be a string or a real number, not 'NoneType'")].
Proof. repeat split; vm_compute; reflexivity. Qed.

End Examples.

(** ** The claims of the specification *)

Import PyFloat PyStr Py Calculator Spec FloatFacts EconomicsFacts LookupFacts.
Local Open Scope float_scope.

(** C1 (amended).  For positive yield, bill and tariff and a savings
    percentage in (0, 100], the call succeeds with the status and all twelve
    fields and a [Kapasitas_kWp] that is at least zero, provided the
    arithmetic stays in range: the effective monthly yield
    [(pvout_annual / 12) * 0.85] has not underflowed to zero, and the
    quotient [kapasitas_kwp * 1000 / 650] handed to [math.ceil] is finite. *)
Theorem positive_inputs_succeed a b c d pv bill tar pct :
  py_float a = Returned pv -> py_float b = Returned bill ->
  py_float c = Returned tar -> py_float d = Returned pct ->
  (0 <? pv) = true -> (0 <? bill) = true -> (0 <? tar) = true ->
  (0 <? pct) = true -> (pct <=? 100) = true ->
  (pvout_monthly_effective pv =? 0) = false ->
  is_finite (panel_quotient pv bill tar pct) = true ->
  is_success (calculate_solar_economics a b c d)
  /\ dict_keys (calculate_solar_economics a b c d) = success_keys
  /\ exists k,
       dict_get (calculate_solar_economics a b c d) "Kapasitas_kWp"
       = Some (VFloat k)
       /\ (0 <=? k) = true.
Proof.
  intros Ha Hb Hc Hd Hpv Hbill Htar Hpct _ Hz Hq.
  pose proof (effective_tariff_given c tar Hc Htar) as Ht.
  assert (Hn : exists n, jumlah_panel pv bill tar pct = Returned n).
  { unfold jumlah_panel. destruct (0 <? kapasitas_kwp pv bill tar pct).
    - apply math_ceil_finite, Hq.
    - eexists; reflexivity. }
  destruct Hn as [n Hn].
  assert (Hr : calculate_solar_economics a b c d
               = success_record pv bill tar pct n).
  { unfold calculate_solar_economics.
    rewrite (economics_try_eq a b c d pv bill tar pct Ha Hb Ht Hd), Hz, Hn.
    reflexivity. }
  rewrite Hr. split; [reflexivity|]. split; [reflexivity|].
  exists (py_round (kapasitas_kwp pv bill tar pct) 2). split; [reflexivity|].
  apply sign_nonneg. rewrite py_round_sign.
  pose proof (finite_quotient_finite_kapasitas _ Hq) as Hk.
  destruct (kapasitas_fsign false pv bill tar pct
              (fsign_of_gt0 _ Hpv) Hbill Htar Hpct) as [Hs|Hs]; [|exact Hs].
  rewrite Hs in Hk. contradiction.
Qed.

(** The example of the specification: 1500 kWh/kWp, a bill of 1000000 at
    a tariff of 1500, full savings. *)
Lemma positive_inputs_succeed_witness :
  is_success
    (calculate_solar_economics
       (VFloat 1500) (VFloat 1000000) (VFloat 1500) (VFloat 100))
  /\ dict_keys
       (calculate_solar_economics
          (VFloat 1500) (VFloat 1000000) (VFloat 1500) (VFloat 100))
     = success_keys
  /\ exists k,
       dict_get
         (calculate_solar_economics
            (VFloat 1500) (VFloat 1000000) (VFloat 1500) (VFloat 100))
         "Kapasitas_kWp"
       = Some (VFloat k)
       /\ (0 <=? k) = true.
Proof.
  apply (positive_inputs_succeed _ _ _ _ 1500 1000000 1500 100);
    vm_compute; reflexivity.
Defined.

(** C1 as stated fails on the smallest positive double: a twelfth of it
    rounds to zero, and the call returns the zero-yield error. *)
Lemma tiny_yield_fails :
  (0 <? 5e-324) = true
  /\ calculate_solar_economics
       (VFloat 5e-324) (VFloat 1000000) (VFloat 1500) (VFloat 100)
     = zero_yield_error.
Proof. split; vm_compute; reflexivity. Qed.

(** C2 (amended).  In every success result [BEP_Tahun] is computed from
    the unrounded investment and the unrounded annual savings: it is
    [round(total_investasi / penghematan_tahunan_uang, 1)] when the savings
    are positive and that quotient is not infinite, and the string ["Inf"]
    otherwise. *)
Theorem bep_from_unrounded_values a b c d :
  is_success (calculate_solar_economics a b c d) ->
  exists pv bill tdl pct,
    py_float a = Returned pv /\ py_float b = Returned bill /\
    effective_tariff c = Returned tdl /\ py_float d = Returned pct /\
    let investasi := total_investasi pv bill tdl pct in
    let penghematan := penghematan_tahunan_uang bill tdl pct in
    dict_get (calculate_solar_economics a b c d) "BEP_Tahun"
    = Some (if (0 <? penghematan)
               && negb (investasi / penghematan =? infinity)
            then VFloat (py_round (investasi / penghematan) 1)
            else VStr "Inf").
Proof.
  intros Hs.
  destruct (success_shape a b c d Hs)
    as (pv & bill & tdl & pct & n & Ha & Hb & Hc & Hd & Hz & Hn & Hr).
  exists pv, bill, tdl, pct. repeat (split; [assumption|]).
  rewrite Hr. cbv zeta. unfold success_record.
  cbn [dict_get String.eqb Ascii.eqb Bool.eqb]. unfold bep_tahun.
  destruct (0 <? penghematan_tahunan_uang bill tdl pct); reflexivity.
Qed.

Lemma bep_from_unrounded_values_witness :
  exists pv bill tdl pct,
    py_float (VFloat 1500) = Returned pv
    /\ py_float (VFloat 0.1) = Returned bill
    /\ effective_tariff (VFloat 1500) = Returned tdl
    /\ py_float (VFloat 100) = Returned pct
    /\ let investasi := total_investasi pv bill tdl pct in
       let penghematan := penghematan_tahunan_uang bill tdl pct in
       dict_get
         (calculate_solar_economics
            (VFloat 1500) (VFloat 0.1) (VFloat 1500) (VFloat 100))
         "BEP_Tahun"
       = Some (if (0 <? penghematan)
                  && negb (investasi / penghematan =? infinity)
               then VFloat (py_round (investasi / penghematan) 1)
               else VStr "Inf").
Proof.
  apply (bep_from_unrounded_values
           (VFloat 1500) (VFloat 0.1) (VFloat 1500) (VFloat 100)).
  vm_compute. reflexivity.
Defined.

(** C2 as stated fails on a bill of 0.1: the rounded fields are 8 and 1,
    whose ratio is 8.0, and [BEP_Tahun] is 6.5; the product of the rounded
    production, 12 and the tariff is positive there.  It also fails on a
    bill of 1 at a tariff of 1000000: the rounded production is 0.0, so the
    product is not positive, and [BEP_Tahun] is the number 0.0. *)
Lemma bep_not_from_rounded_fields :
  let r := calculate_solar_economics
             (VFloat 1500) (VFloat 0.1) (VFloat 1500) (VFloat 100) in
  let r' := calculate_solar_economics
              (VFloat 1200) (VFloat 1) (VFloat 1000000) (VFloat 100) in
  (is_success r
   /\ dict_get r "Produksi_kWh_Bulanan" = Some (VFloat 0.0001)
   /\ (0 <? 0.0001 * 12 * 1500) = true
   /\ dict_get r "Total_Investasi" = Some (VFloat 8)
   /\ dict_get r "Penghematan_Tahunan_Rp" = Some (VFloat 1)
   /\ py_round (8 / 1) 1 = 8
   /\ dict_get r "BEP_Tahun" = Some (VFloat 6.5))
  /\ (is_success r'
      /\ dict_get r' "Produksi_kWh_Bulanan" = Some (VFloat 0)
      /\ (0 * 12 * 1000000 <=? 0) = true
      /\ dict_get r' "BEP_Tahun" = Some (VFloat 0)).
Proof. cbv zeta. repeat split; vm_compute; reflexivity. Qed.

(** C3 (amended).  In every success result [Jumlah_Panel] is computed
    from the unrounded capacity: it is [ceil(kapasitas_kwp * 1000 / 650)]
    when [kapasitas_kwp > 0] and 0 otherwise, while [Kapasitas_kWp] is that
    capacity rounded to two decimals. *)
Theorem panels_from_unrounded_capacity a b c d :
  is_success (calculate_solar_economics a b c d) ->
  exists pv bill tdl pct n,
    py_float a = Returned pv /\ py_float b = Returned bill /\
    effective_tariff c = Returned tdl /\ py_float d = Returned pct /\
    let kapasitas := kapasitas_kwp pv bill tdl pct in
    dict_get (calculate_solar_economics a b c d) "Kapasitas_kWp"
    = Some (VFloat (py_round kapasitas 2))
    /\ dict_get (calculate_solar_economics a b c d) "Jumlah_Panel"
       = Some (VInt n)
    /\ (if 0 <? kapasitas
        then ceil_Z (kapasitas * 1000 / float_of_Z PANEL_WATT_PEAK) = Some n
        else n = 0%Z).
Proof.
  intros Hs.
  destruct (success_shape a b c d Hs)
    as (pv & bill & tdl & pct & n & Ha & Hb & Hc & Hd & Hz & Hn & Hr).
  exists pv, bill, tdl, pct, n. repeat (split; [assumption|]).
  rewrite Hr. cbv zeta. split; [reflexivity|]. split; [reflexivity|].
  revert Hn. unfold jumlah_panel, panel_quotient, math_ceil.
  destruct (0 <? kapasitas_kwp pv bill tdl pct).
  - destruct (ceil_Z _) as [z|].
    + intros H; injection H as <-. reflexivity.
    + destruct (is_nan _); discriminate.
  - intros H; injection H as <-. reflexivity.
Qed.

Lemma panels_from_unrounded_capacity_witness :
  exists pv bill tdl pct n,
    py_float (VFloat 1500) = Returned pv
    /\ py_float (VFloat 1000000) = Returned bill
    /\ effective_tariff (VFloat 1500) = Returned tdl
    /\ py_float (VFloat 100) = Returned pct
    /\ let kapasitas := kapasitas_kwp pv bill tdl pct in
       dict_get
         (calculate_solar_economics
            (VFloat 1500) (VFloat 1000000) (VFloat 1500) (VFloat 100))
         "Kapasitas_kWp"
       = Some (VFloat (py_round kapasitas 2))
       /\ dict_get
            (calculate_solar_economics
               (VFloat 1500) (VFloat 1000000) (VFloat 1500) (VFloat 100))
            "Jumlah_Panel"
          = Some (VInt n)
       /\ (if 0 <? kapasitas
           then ceil_Z (kapasitas * 1000 / float_of_Z PANEL_WATT_PEAK) = Some n
           else n = 0%Z).
Proof.
  apply (panels_from_unrounded_capacity
           (VFloat 1500) (VFloat 1000000) (VFloat 1500) (VFloat 100)).
  vm_compute. reflexivity.
Defined.

(** C3 as stated fails on a bill of 100: [Kapasitas_kWp] is 0.0, whose
    ceiling formula gives 0 panels, and [Jumlah_Panel] is 1. *)
Lemma panels_not_from_rounded_capacity :
  let r := calculate_solar_economics
             (VFloat 1500) (VFloat 100) (VFloat 1500) (VFloat 100) in
  is_success r
  /\ dict_get r "Kapasitas_kWp" = Some (VFloat 0)
  /\ (0 <=? 0) = true
  /\ ceil_Z (0 * 1000 / float_of_Z PANEL_WATT_PEAK) = Some 0%Z
  /\ dict_get r "Jumlah_Panel" = Some (VInt 1).
Proof. cbv zeta. repeat split; vm_compute; reflexivity. Qed.

(** C4.  A tariff that is absent ([None], empty) or at most zero is
    replaced by the default, and [TDL_Used] of a success result is then
    exactly 1699.53; a strictly positive tariff is used as given. *)
Theorem tariff_resolution t :
  (not_provided t = true
   \/ (exists f, py_float t = Returned f /\ (f <=? 0) = true) ->
   effective_tariff t = Returned 1699.53
   /\ forall a b d,
        is_success (calculate_solar_economics a b t d) ->
        dict_get (calculate_solar_economics a b t d) "TDL_Used"
        = Some (VFloat 1699.53))
  /\ (forall f,
        py_float t = Returned f -> (0 <? f) = true ->
        effective_tariff t = Returned f
        /\ forall a b d,
             is_success (calculate_solar_economics a b t d) ->
             dict_get (calculate_solar_economics a b t d) "TDL_Used"
             = Some (VFloat (py_round f 2))).
Proof.
  split.
  - intros H. pose proof (effective_tariff_default t H) as Ht.
    split; [exact Ht|]. intros a b d Hs.
    rewrite (TDL_Used_field a b t d _ Ht Hs). vm_compute. reflexivity.
  - intros f Hf Hp. pose proof (effective_tariff_given t f Hf Hp) as Ht.
    split; [exact Ht|]. intros a b d Hs.
    apply (TDL_Used_field a b t d _ Ht Hs).
Qed.

(** No tariff, a tariff of -5, and a tariff of 1500. *)
Lemma tariff_resolution_witness :
  effective_tariff VNone = Returned 1699.53
  /\ effective_tariff (VInt (-5)) = Returned 1699.53
  /\ dict_get
       (calculate_solar_economics
          (VFloat 1500) (VFloat 1000000) (VStr "") (VFloat 100)) "TDL_Used"
     = Some (VFloat 1699.53)
  /\ effective_tariff (VFloat 1500) = Returned 1500.
Proof.
  split; [|split; [|split]].
  - apply (proj1 (tariff_resolution VNone)). left. reflexivity.
  - apply (proj1 (tariff_resolution (VInt (-5)))). right.
    exists (-5). split; vm_compute; reflexivity.
  - apply (proj1 (tariff_resolution (VStr ""))).
    + left. reflexivity.
    + vm_compute. reflexivity.
  - apply (proj2 (tariff_resolution (VFloat 1500)) 1500); reflexivity.
Defined.

(** C5.  The call never lets an exception escape and never mixes the two
    shapes: the result is either the one-entry dict [{"error": msg}] with a
    message, or a record with status ["success"], exactly the status and the
    twelve fields, and no ["error"] entry. *)
Theorem economics_never_raises a b c d :
  (is_failure (calculate_solar_economics a b c d)
   /\ dict_get (calculate_solar_economics a b c d) "status" = None)
  \/ (is_success (calculate_solar_economics a b c d)
      /\ dict_keys (calculate_solar_economics a b c d) = success_keys
      /\ dict_get (calculate_solar_economics a b c d) "error" = None).
Proof.
  destruct (economics_shape a b c d)
    as [e Hr|pv Ha Hz Hr|pv bill tdl pct n Ha Hb Hc Hd Hz Hn Hr]; rewrite Hr.
  - left. split; [|reflexivity]. eexists. split; [reflexivity|]. discriminate.
  - left. split; [|reflexivity]. eexists. split; [reflexivity|]. discriminate.
  - right. repeat split.
Qed.

(** C6.  A yield of zero makes the effective monthly yield zero, and the
    call a failure whatever the other arguments are; when they coerce, the
    failure is the zero-yield error. *)
Theorem zero_yield_is_an_error a b c d pv :
  py_float a = Returned pv -> (pv =? 0) = true ->
  (pvout_monthly_effective pv =? 0) = true
  /\ is_failure (calculate_solar_economics a b c d)
  /\ ((exists bill tdl pct,
         py_float b = Returned bill
         /\ effective_tariff c = Returned tdl /\ py_float d = Returned pct) ->
      calculate_solar_economics a b c d = zero_yield_error).
Proof.
  intros Ha Hz. apply zero_yield in Hz. split; [exact Hz|]. split.
  - destruct (economics_shape a b c d)
      as [e Hr|pv' Ha' Hz' Hr|pv' bill tdl pct n Ha' Hb Hc Hd Hz' Hn Hr];
      rewrite Hr.
    + eexists. split; [reflexivity|]. discriminate.
    + eexists. split; [reflexivity|]. discriminate.
    + rewrite Ha in Ha'. injection Ha' as <-. rewrite Hz in Hz'. discriminate.
  - intros (bill & tdl & pct & Hb & Hc & Hd).
    unfold calculate_solar_economics.
    rewrite (economics_try_eq a b c d pv bill tdl pct Ha Hb Hc Hd), Hz.
    reflexivity.
Qed.

Lemma zero_yield_is_an_error_witness :
  (pvout_monthly_effective 0 =? 0) = true
  /\ is_failure
       (calculate_solar_economics (VInt 0) (VFloat 1000000) VNone (VFloat 100))
  /\ ((exists bill tdl pct,
         py_float (VFloat 1000000) = Returned bill
         /\ effective_tariff VNone = Returned tdl
         /\ py_float (VFloat 100) = Returned pct) ->
      calculate_solar_economics (VInt 0) (VFloat 1000000) VNone (VFloat 100)
      = zero_yield_error).
Proof.
  apply (zero_yield_is_an_error
           (VInt 0) (VFloat 1000000) VNone (VFloat 100) 0);
    vm_compute; reflexivity.
Defined.

(** C7 (amended).  When [requests.get] raises a request exception
    (timeout, unreachable host), or the response has a 4xx or 5xx status, the
    lookup returns [{"error": msg}] with ["request error"] in the message;
    when the response passes [raise_for_status] and its JSON body lacks the
    path [outputs.totals.fixed.E_y], it returns the error whose message
    contains ["missing"].  The function is total: nothing escapes. *)
Theorem lookup_failures_are_reported (net : network)
    (latitude longitude loss slope azimuth : pyval) :
  let url := pvgis_url latitude longitude loss slope azimuth in
  let result := get_pvout_annual net latitude longitude loss slope azimuth in
  (forall e,
     net url = Raised e -> is_request_exception e = true ->
     result = [("error", VStr ("PVGIS request error: " ++ exn_str e))]
     /\ contains "request error" ("PVGIS request error: " ++ exn_str e) = true)
  /\ (forall r,
        net url = Returned r -> http_error_status r = true ->
        exists msg,
          result = [("error", VStr msg)]
          /\ contains "request error" msg = true)
  /\ (forall r data,
        net url = Returned r -> http_error_status r = false ->
        json r = Returned data -> lookup_path E_y_path data = None ->
        result = [("error", VStr "PVGIS response missing E_y value.")]
        /\ contains "missing" "PVGIS response missing E_y value." = true).
Proof.
  cbv zeta. unfold get_pvout_annual, get_pvout_annual_try. split; [|split].
  - intros e Hn He. rewrite Hn. cbn [bind]. rewrite He. split; [reflexivity|].
    apply (contains_after "PVGIS " "request error" (": " ++ exn_str e)).
  - intros r Hn Hs. rewrite Hn. cbn [bind].
    destruct (raise_for_status_error
                (pvgis_url latitude longitude loss slope azimuth) r Hs)
      as (e & He & Hc).
    rewrite He. cbn [bind]. rewrite Hc. eexists. split; [reflexivity|].
    apply (contains_after "PVGIS " "request error" (": " ++ exn_str e)).
  - intros r data Hn Hs Hj Hl. rewrite Hn. cbn [bind].
    rewrite (raise_for_status_ok _ r Hs). cbn [bind]. rewrite Hj. cbn [bind].
    pose proof (get_E_y_lookup data) as Hg.
    destruct (get_E_y data) as [x|e].
    + rewrite Hl in Hg. discriminate.
    + split; reflexivity.
Qed.

(** A timeout, a 404, and a body without [totals]. *)
Lemma lookup_failures_are_reported_witness :
  get_pvout_annual (fun _ => Raised (mk_exn RequestException "timed out"))
    (VFloat (-6.2)) (VFloat 106.8) default_loss default_slope default_azimuth
  = [("error", VStr "PVGIS request error: timed out")]
  /\ (exists msg,
        get_pvout_annual
          (fun _ => Returned (mk_response 404 "Not Found" (Returned sample_body)))
          (VFloat (-6.2)) (VFloat 106.8)
          default_loss default_slope default_azimuth
        = [("error", VStr msg)]
        /\ contains "request error" msg = true)
  /\ get_pvout_annual
       (fun _ => Returned (mk_response 200 "OK"
                             (Returned (VDict [("outputs", VDict [])]))))
       (VFloat (-6.2)) (VFloat 106.8) default_loss default_slope default_azimuth
     = [("error", VStr "PVGIS response missing E_y value.")].
Proof.
  split; [|split].
  - apply (proj1 (lookup_failures_are_reported
                    (fun _ => Raised (mk_exn RequestException "timed out"))
                    (VFloat (-6.2)) (VFloat 106.8)
                    default_loss default_slope default_azimuth)
                 (mk_exn RequestException "timed out"));
      reflexivity.
  - apply (proj1 (proj2 (lookup_failures_are_reported
                    (fun _ => Returned (mk_response 404 "Not Found"
                                          (Returned sample_body)))
                    (VFloat (-6.2)) (VFloat 106.8)
                    default_loss default_slope default_azimuth))
                 (mk_response 404 "Not Found" (Returned sample_body)));
      reflexivity.
  - apply (proj2 (proj2 (lookup_failures_are_reported
                    (fun _ => Returned (mk_response 200 "OK"
                                 (Returned (VDict [("outputs", VDict [])]))))
                    (VFloat (-6.2)) (VFloat 106.8)
                    default_loss default_slope default_azimuth))
                 (mk_response 200 "OK"
                    (Returned (VDict [("outputs", VDict [])])))
                 (VDict [("outputs", VDict [])]));
      reflexivity.
Defined.

(** C7 as stated fails on a status that is neither 2xx nor an error
    status: [raise_for_status] lets a 300 pass, and a body that carries the
    yield is returned as a success. *)
Lemma redirect_status_is_not_reported :
  let r := mk_response 300 "Multiple Choices" (Returned sample_body) in
  http_error_status r = false
  /\ get_pvout_annual (fun _ => Returned r)
       (VFloat (-6.2)) (VFloat 106.8) default_loss default_slope default_azimuth
     = [("pvout_numeric", VFloat 1234.56); ("pvout_formatted", VStr "1234,6")].
Proof. cbv zeta. split; vm_compute; reflexivity. Qed.

(** C8.  In every success result [Estimasi_Area_m2] is
    [round(Jumlah_Panel * 2.71, 2)], a product that never overflows; up to
    2000 panels that is exactly the double of the decimal number
    [Jumlah_Panel * 2.71]. *)
Theorem area_is_rounded_panel_area a b c d :
  is_success (calculate_solar_economics a b c d) ->
  exists n,
    dict_get (calculate_solar_economics a b c d) "Jumlah_Panel" = Some (VInt n)
    /\ int_to_float n = Returned (float_of_Z n)
    /\ dict_get (calculate_solar_economics a b c d) "Estimasi_Area_m2"
       = Some (VFloat (py_round (float_of_Z n * PANEL_AREA_SQM) 2))
    /\ ((0 <= n < 2000)%Z ->
        py_round (float_of_Z n * PANEL_AREA_SQM) 2
        = nearest_float false (271 * n) 100).
Proof.
  intros Hs.
  destruct (success_shape a b c d Hs)
    as (pv & bill & tdl & pct & n & Ha & Hb & Hc & Hd & Hz & Hn & Hr).
  exists n. rewrite Hr. split; [reflexivity|].
  split; [exact (int_to_float_panels _ _ _ _ _ Hn)|].
  split; [reflexivity|]. apply area_exact_small.
Qed.

Lemma area_is_rounded_panel_area_witness :
  exists n,
    dict_get
      (calculate_solar_economics
         (VFloat 1500) (VFloat 1000000) (VFloat 1500) (VFloat 100))
      "Jumlah_Panel" = Some (VInt n)
    /\ int_to_float n = Returned (float_of_Z n)
    /\ dict_get
         (calculate_solar_economics
            (VFloat 1500) (VFloat 1000000) (VFloat 1500) (VFloat 100))
         "Estimasi_Area_m2"
       = Some (VFloat (py_round (float_of_Z n * PANEL_AREA_SQM) 2))
    /\ ((0 <= n < 2000)%Z ->
        py_round (float_of_Z n * PANEL_AREA_SQM) 2
        = nearest_float false (271 * n) 100).
Proof.
  apply (area_is_rounded_panel_area
           (VFloat 1500) (VFloat 1000000) (VFloat 1500) (VFloat 100)).
  vm_compute. reflexivity.
Defined.

(** C9.  The effective tariff is strictly positive, so the test
    [float(tdl) != 0] of line 65 always holds: the monthly need is
    [float(tagihan_listrik) / tdl], the division never raises, and
    [Kebutuhan_kWh_Bulanan] of a success result is that quotient rounded. *)
Theorem zero_tariff_guard_unreachable c tdl :
  effective_tariff c = Returned tdl ->
  (tdl = DEFAULT_TARIFF \/ py_float c = Returned tdl)
  /\ (0 <? tdl) = true
  /\ (tdl =? 0) = false
  /\ (forall b,
        guarded_kebutuhan tdl b
        = (bill <- py_float b ;; Returned (bill / tdl)))
  /\ (forall a b d,
        is_success (calculate_solar_economics a b c d) ->
        exists bill,
          py_float b = Returned bill
          /\ dict_get (calculate_solar_economics a b c d)
               "Kebutuhan_kWh_Bulanan"
             = Some (VFloat (py_round (bill / tdl) 2))).
Proof.
  intros Hc. pose proof (effective_tariff_positive c tdl Hc) as Hp.
  pose proof (gt0_nonzero tdl Hp) as Hz.
  split; [exact (effective_tariff_origin c tdl Hc)|].
  split; [exact Hp|]. split; [exact Hz|]. split.
  - intros b. unfold guarded_kebutuhan, float_div. rewrite Hz. reflexivity.
  - intros a b d Hs.
    destruct (success_shape a b c d Hs)
      as (pv & bill & tdl' & pct & n & Ha & Hb & Hc' & Hd & _ & Hn & Hr).
    rewrite Hc in Hc'. injection Hc' as <-.
    exists bill. split; [exact Hb|]. rewrite Hr. reflexivity.
Qed.

Lemma zero_tariff_guard_unreachable_witness :
  (DEFAULT_TARIFF = DEFAULT_TARIFF \/ py_float (VInt 0) = Returned DEFAULT_TARIFF)
  /\ (0 <? DEFAULT_TARIFF) = true
  /\ (DEFAULT_TARIFF =? 0) = false
  /\ (forall b,
        guarded_kebutuhan DEFAULT_TARIFF b
        = (bill <- py_float b ;; Returned (bill / DEFAULT_TARIFF)))
  /\ (forall a b d,
        is_success (calculate_solar_economics a b (VInt 0) d) ->
        exists bill,
          py_float b = Returned bill
          /\ dict_get (calculate_solar_economics a b (VInt 0) d)
               "Kebutuhan_kWh_Bulanan"
             = Some (VFloat (py_round (bill / DEFAULT_TARIFF) 2))).
Proof.
  apply (zero_tariff_guard_unreachable (VInt 0) DEFAULT_TARIFF). reflexivity.
Defined.

(** C10 (amended).  A strictly negative yield whose effective monthly
    yield is not zero, with positive bill and tariff and a savings percentage
    in (0, 100], is not rejected: the call succeeds with [Jumlah_Panel] 0
    and a [Kapasitas_kWp] that is never positive and never +0.0.  It is
    negative or -0.0 whenever the monthly production target is finite, and
    NaN is the only other value it takes.  When the annual savings are
    positive [BEP_Tahun] is a number, not ["Inf"]: negative or -0.0
    whenever the savings are finite, and NaN otherwise at worst. *)
Theorem negative_yield_succeeds a b c d pv bill tar pct :
  py_float a = Returned pv -> py_float b = Returned bill ->
  py_float c = Returned tar -> py_float d = Returned pct ->
  (pv <? 0) = true -> (0 <? bill) = true -> (0 <? tar) = true ->
  (0 <? pct) = true -> (pct <=? 100) = true ->
  (pvout_monthly_effective pv =? 0) = false ->
  is_success (calculate_solar_economics a b c d)
  /\ dict_get (calculate_solar_economics a b c d) "Jumlah_Panel"
     = Some (VInt 0)
  /\ (exists k,
        dict_get (calculate_solar_economics a b c d) "Kapasitas_kWp"
        = Some (VFloat k)
        /\ (0 <? k) = false
        /\ (k = nan \/ (k <? 0) = true \/ k = neg_zero)
        /\ (is_finite (target_produksi_bulanan bill tar pct) = true ->
            (k <? 0) = true \/ k = neg_zero))
  /\ ((0 <? penghematan_tahunan_uang bill tar pct) = true ->
      exists y,
        dict_get (calculate_solar_economics a b c d) "BEP_Tahun"
        = Some (VFloat y)
        /\ (0 <? y) = false
        /\ (y = nan \/ (y <? 0) = true \/ y = neg_zero)
        /\ (is_finite (penghematan_tahunan_uang bill tar pct) = true ->
            (y <? 0) = true \/ y = neg_zero)).
Proof.
  intros Ha Hb Hc Hd Hpv Hbill Htar Hpct _ Hz.
  pose proof (effective_tariff_given c tar Hc Htar) as Ht.
  pose proof (kapasitas_fsign true pv bill tar pct
                (fsign_of_lt0 _ Hpv) Hbill Htar Hpct) as Hk.
  pose proof (fsign_true_not_gt0 _ Hk) as Hk0.
  assert (Hr : calculate_solar_economics a b c d
               = success_record pv bill tar pct 0).
  { unfold calculate_solar_economics.
    rewrite (economics_try_eq a b c d pv bill tar pct Ha Hb Ht Hd), Hz.
    unfold jumlah_panel. rewrite Hk0. reflexivity. }
  rewrite Hr. split; [reflexivity|]. split; [reflexivity|]. split.
  - exists (py_round (kapasitas_kwp pv bill tar pct) 2).
    split; [reflexivity|].
    pose proof (py_round_fsign true _ 2 Hk) as Hk2.
    split; [apply fsign_true_not_gt0, Hk2|].
    split; [apply OutcomeFacts.fsign_true_cases, Hk2|].
    intros Hf. apply OutcomeFacts.sign_true_cases. rewrite py_round_sign.
    apply OutcomeFacts.kapasitas_sign_negative; try assumption.
    apply OutcomeFacts.finite_sf_finite, Hf.
  - intros Hs. pose proof (bep_fsign_negative pv bill tar pct Hk Hs) as Hbep.
    pose proof (py_round_fsign true _ 1 Hbep) as Hbep1.
    exists (py_round (bep_tahun pv bill tar pct) 1). split.
    + unfold success_record. cbn [dict_get String.eqb Ascii.eqb Bool.eqb].
      rewrite (fsign_true_not_infinity _ Hbep). reflexivity.
    + split; [apply fsign_true_not_gt0, Hbep1|].
      split; [apply OutcomeFacts.fsign_true_cases, Hbep1|].
      intros Hf. apply OutcomeFacts.sign_true_cases. rewrite py_round_sign.
      apply OutcomeFacts.bep_sign_negative; assumption.
Qed.

Lemma negative_yield_succeeds_witness :
  is_success
    (calculate_solar_economics
       (VFloat (-1500)) (VFloat 1000000) (VFloat 1500) (VFloat 100))
  /\ dict_get
       (calculate_solar_economics
          (VFloat (-1500)) (VFloat 1000000) (VFloat 1500) (VFloat 100))
       "Jumlah_Panel"
     = Some (VInt 0)
  /\ (exists k,
        dict_get
          (calculate_solar_economics
             (VFloat (-1500)) (VFloat 1000000) (VFloat 1500) (VFloat 100))
          "Kapasitas_kWp"
        = Some (VFloat k)
        /\ (0 <? k) = false
        /\ (k = nan \/ (k <? 0) = true \/ k = neg_zero)
        /\ (is_finite (target_produksi_bulanan 1000000 1500 100) = true ->
            (k <? 0) = true \/ k = neg_zero))
  /\ ((0 <? penghematan_tahunan_uang 1000000 1500 100) = true ->
      exists y,
        dict_get
          (calculate_solar_economics
             (VFloat (-1500)) (VFloat 1000000) (VFloat 1500) (VFloat 100))
          "BEP_Tahun"
        = Some (VFloat y)
        /\ (0 <? y) = false
        /\ (y = nan \/ (y <? 0) = true \/ y = neg_zero)
        /\ (is_finite (penghematan_tahunan_uang 1000000 1500 100) = true ->
            (y <? 0) = true \/ y = neg_zero)).
Proof.
  apply (negative_yield_succeeds _ _ _ _ (-1500) 1000000 1500 100);
    vm_compute; reflexivity.
Defined.

(** C10 as stated fails on a bill of 1: the capacity of about -0.000006
    rounds to -0.0, which is not strictly negative. *)
Lemma negative_yield_zero_capacity :
  let r := calculate_solar_economics
             (VFloat (-1500)) (VFloat 1) (VFloat 1500) (VFloat 100) in
  is_success r
  /\ dict_get r "Kapasitas_kWp" = Some (VFloat neg_zero)
  /\ (neg_zero <? 0) = false.
Proof. cbv zeta. repeat split; vm_compute; reflexivity. Qed.

(** Where the arithmetic overflows the capacity is no number at all: an
    infinite bill at a yield of minus infinity gives NaN. *)
Lemma negative_infinite_yield_nan_capacity :
  let r := calculate_solar_economics
             (VFloat neg_infinity) (VFloat infinity) (VFloat 1500)
             (VFloat 100) in
  is_success r
  /\ dict_get r "Kapasitas_kWp" = Some (VFloat nan)
  /\ dict_get r "BEP_Tahun" = Some (VFloat nan)
  /\ dict_get r "Jumlah_Panel" = Some (VInt 0).
Proof. cbv zeta. repeat split; vm_compute; reflexivity. Qed.

(** ** Further properties of the two functions

    Read off the code: which outcomes a call can have, what the fields of a
    result can hold, and how inputs outside the expected range are
    treated. *)

Import Outcomes OutcomeFacts.

(** X1.  Once the four arguments are floats (the tariff through line 64),
    the call has three outcomes and no other: the zero-yield error when the
    effective monthly yield is zero; the caught [OverflowError] of
    [math.ceil] when the capacity is positive and the panel quotient is
    infinite; and otherwise the success record, with the panel count of
    line 79.  No other line of the body raises, [math.ceil] never sees a
    NaN. *)
Theorem outcome_after_coercion a b c d pv bill tdl pct :
  py_float a = Returned pv -> py_float b = Returned bill ->
  effective_tariff c = Returned tdl -> py_float d = Returned pct ->
  calculate_solar_economics a b c d =
    if pvout_monthly_effective pv =? 0 then zero_yield_error
    else if (0 <? kapasitas_kwp pv bill tdl pct)
            && (panel_quotient pv bill tdl pct =? infinity)
         then calc_error ceil_overflow
         else success_record pv bill tdl pct (panel_count pv bill tdl pct).
Proof.
  intros Ha Hb Hc Hd. exact (economics_outcome a b c d pv bill tdl pct Ha Hb Hc Hd).
Qed.

(** The example of the specification takes the third outcome, with ten
    panels. *)
Lemma outcome_after_coercion_witness :
  calculate_solar_economics
    (VFloat 1500) (VFloat 1000000) (VFloat 1500) (VFloat 100)
  = (if pvout_monthly_effective 1500 =? 0 then zero_yield_error
     else if (0 <? kapasitas_kwp 1500 1000000 1500 100)
             && (panel_quotient 1500 1000000 1500 100 =? infinity)
          then calc_error ceil_overflow
          else success_record 1500 1000000 1500 100
                 (panel_count 1500 1000000 1500 100))
  /\ panel_count 1500 1000000 1500 100 = 10%Z.
Proof.
  split; [|reflexivity].
  apply (outcome_after_coercion _ _ _ _ 1500 1000000 1500 100); reflexivity.
Defined.

(** X2.  The arguments are coerced in the order tariff, bill, savings
    percentage, yield, and the first one [float] rejects is the one whose
    message the error dictionary carries, whatever the later ones are. *)
Theorem coercion_errors_in_order a b c d :
  (forall e, effective_tariff c = Raised e ->
             calculate_solar_economics a b c d = calc_error e)
  /\ (forall tdl e,
        effective_tariff c = Returned tdl -> py_float b = Raised e ->
        calculate_solar_economics a b c d = calc_error e)
  /\ (forall tdl bill e,
        effective_tariff c = Returned tdl -> py_float b = Returned bill ->
        py_float d = Raised e ->
        calculate_solar_economics a b c d = calc_error e)
  /\ (forall tdl bill pct e,
        effective_tariff c = Returned tdl -> py_float b = Returned bill ->
        py_float d = Returned pct -> py_float a = Raised e ->
        calculate_solar_economics a b c d = calc_error e).
Proof.
  split; [|split; [|split]].
  - intros e. apply tariff_error_first.
  - intros tdl e. apply bill_error_second.
  - intros tdl bill e. apply percent_error_third.
  - intros tdl bill pct e. apply yield_error_last.
Qed.

(** A bad tariff is reported before a bad bill, a bad bill before a
    missing percentage. *)
Lemma coercion_errors_in_order_witness :
  calculate_solar_economics (VFloat 1500) (VStr "abc") (VStr "x") VNone
  = calc_error (mk_exn ValueError "could not convert string to float: 'x'")
  /\ calculate_solar_economics (VFloat 1500) (VStr "abc") (VFloat 1500) VNone
     = calc_error (mk_exn ValueError "could not convert string to float: 'abc'").
Proof.
  split.
  - apply (proj1 (coercion_errors_in_order
                    (VFloat 1500) (VStr "abc") (VStr "x") VNone)).
    reflexivity.
  - apply (proj1 (proj2 (coercion_errors_in_order
                           (VFloat 1500) (VStr "abc") (VFloat 1500) VNone))
             1500);
      reflexivity.
Defined.

(** X3.  Line 64 for every argument: a tariff [float] accepts is used when
    it is greater than zero and replaced by 1699.53 otherwise (also when it
    is NaN); a tariff [float] rejects raises when it is truthy (a
    non-numeric string, a non-empty list) and is replaced by 1699.53 when it
    is falsy ([None], an empty string, list or dict). *)
Theorem tariff_decision t :
  (forall f, py_float t = Returned f ->
             effective_tariff t
             = Returned (if 0 <? f then f else DEFAULT_TARIFF))
  /\ (forall e, py_float t = Raised e ->
                effective_tariff t
                = if py_truthy t then Raised e else Returned DEFAULT_TARIFF).
Proof.
  split.
  - intros f Hf. unfold effective_tariff. destruct (py_truthy t) eqn:Ht.
    + rewrite Hf. cbn [bind]. destruct (0 <? f); reflexivity.
    + rewrite (falsy_float_not_positive t f Ht Hf). reflexivity.
  - intros e He. unfold effective_tariff. rewrite He.
    destruct (py_truthy t); reflexivity.
Qed.

(** The string ["0"] and the empty list fall back to the default tariff,
    the string ["abc"] raises. *)
Lemma tariff_decision_witness :
  effective_tariff (VStr "0") = Returned DEFAULT_TARIFF
  /\ effective_tariff (VStr "abc")
     = Raised (mk_exn ValueError "could not convert string to float: 'abc'")
  /\ effective_tariff (VList []) = Returned DEFAULT_TARIFF.
Proof.
  split; [|split].
  - apply (proj1 (tariff_decision (VStr "0")) 0). reflexivity.
  - apply (proj2 (tariff_decision (VStr "abc"))
             (mk_exn ValueError "could not convert string to float: 'abc'")).
    reflexivity.
  - apply (proj2 (tariff_decision (VList []))
             (mk_exn TypeError
                "float() argument must be a string or a real number, not 'list'")).
    reflexivity.
Defined.

(** X4.  An error result holds the one key [error].  Its message is the
    fixed zero-yield text, when the body returned it for a yield whose
    effective monthly value is zero; or it is the prefix
    ["Kesalahan perhitungan finansial: "] followed by the text of the
    exception the body raised, which is the one of the first [float] that
    rejected its argument (tariff, bill, percentage, yield, in this order)
    or the [OverflowError] of [math.ceil] on an infinite panel quotient. *)
Theorem failure_messages a b c d msg :
  dict_get (calculate_solar_economics a b c d) "error" = Some (VStr msg) ->
  calculate_solar_economics a b c d = [("error", VStr msg)]
  /\ ((calculate_solar_economics_try a b c d = Returned zero_yield_error
       /\ msg = "PVOut tahunan tidak valid (0) atau LOSS_FACTOR=0."
       /\ exists pv, py_float a = Returned pv
                     /\ (pvout_monthly_effective pv =? 0) = true)
      \/ exists e,
           calculate_solar_economics_try a b c d = Raised e
           /\ raised_by a b c d e
           /\ msg = "Kesalahan perhitungan finansial: " ++ exn_str e).
Proof.
  unfold calculate_solar_economics.
  destruct (calculate_solar_economics_try a b c d) as [r|e] eqn:T.
  - destruct (coerce_inputs a b c d) as [pv bill tdl pct Ha Hb Hc Hd|e H];
      [|rewrite H in T; discriminate].
    rewrite (economics_try_eq a b c d pv bill tdl pct Ha Hb Hc Hd) in T.
    destruct (pvout_monthly_effective pv =? 0) eqn:Hz.
    + injection T as <-. intros H. injection H as <-.
      split; [reflexivity|]. left. split; [reflexivity|].
      split; [reflexivity|]. exists pv. split; [exact Ha|exact Hz].
    + destruct (jumlah_panel pv bill tdl pct) as [n|e]; cbn [bind] in T;
        [|discriminate].
      injection T as <-. discriminate.
  - intros H. injection H as <-. split; [reflexivity|]. right.
    exists e. split; [reflexivity|]. split; [|reflexivity].
    apply try_raised_by, T.
Qed.

(** A bill that is no number. *)
Lemma failure_messages_witness :
  calculate_solar_economics (VFloat 1500) (VStr "abc") (VFloat 1500) (VFloat 100)
  = [("error",
      VStr "Kesalahan perhitungan finansial: could not convert string to float: 'abc'")]
  /\ ((calculate_solar_economics_try
         (VFloat 1500) (VStr "abc") (VFloat 1500) (VFloat 100)
       = Returned zero_yield_error
       /\ "Kesalahan perhitungan finansial: could not convert string to float: 'abc'"
          = "PVOut tahunan tidak valid (0) atau LOSS_FACTOR=0."
       /\ exists pv, py_float (VFloat 1500) = Returned pv
                     /\ (pvout_monthly_effective pv =? 0) = true)
      \/ exists e,
           calculate_solar_economics_try
             (VFloat 1500) (VStr "abc") (VFloat 1500) (VFloat 100)
           = Raised e
           /\ raised_by (VFloat 1500) (VStr "abc") (VFloat 1500) (VFloat 100) e
           /\ "Kesalahan perhitungan finansial: could not convert string to float: 'abc'"
              = "Kesalahan perhitungan finansial: " ++ exn_str e).
Proof.
  apply (failure_messages
           (VFloat 1500) (VStr "abc") (VFloat 1500) (VFloat 100)).
  reflexivity.
Defined.

(** X5.  In every success result [Jumlah_Panel] is an integer that is
    never negative and [Estimasi_Area_m2] is never below zero; the count is
    0 when the unrounded capacity is not greater than zero, and at least 1
    when the capacity and the panel quotient are greater than zero. *)
Theorem panel_count_bounds a b c d :
  is_success (calculate_solar_economics a b c d) ->
  exists pv bill tdl pct n area,
    py_float a = Returned pv /\ py_float b = Returned bill /\
    effective_tariff c = Returned tdl /\ py_float d = Returned pct /\
    dict_get (calculate_solar_economics a b c d) "Jumlah_Panel"
    = Some (VInt n)
    /\ dict_get (calculate_solar_economics a b c d) "Estimasi_Area_m2"
       = Some (VFloat area)
    /\ (0 <= n)%Z
    /\ (area <? 0) = false
    /\ ((0 <? kapasitas_kwp pv bill tdl pct) = false -> n = 0%Z)
    /\ ((0 <? kapasitas_kwp pv bill tdl pct) = true ->
        (0 <? panel_quotient pv bill tdl pct) = true -> (1 <= n)%Z).
Proof.
  intros Hs.
  destruct (success_shape a b c d Hs)
    as (pv & bill & tdl & pct & n & Ha & Hb & Hc & Hd & Hz & Hn & Hr).
  destruct (jumlah_panel_bounds pv bill tdl pct n Hn) as (H0 & H1 & H2).
  exists pv, bill, tdl, pct, n,
    (py_round (float_of_Z n * PANEL_AREA_SQM) 2).
  repeat (split; [assumption|]). rewrite Hr.
  split; [reflexivity|]. split; [reflexivity|]. split; [exact H0|].
  split; [apply sign_false_not_lt0, area_sign, H0|]. split; assumption.
Qed.

(** The example of the specification. *)
Lemma panel_count_bounds_witness :
  exists pv bill tdl pct n area,
    py_float (VFloat 1500) = Returned pv
    /\ py_float (VFloat 1000000) = Returned bill
    /\ effective_tariff (VFloat 1500) = Returned tdl
    /\ py_float (VFloat 100) = Returned pct
    /\ dict_get
         (calculate_solar_economics
            (VFloat 1500) (VFloat 1000000) (VFloat 1500) (VFloat 100))
         "Jumlah_Panel"
       = Some (VInt n)
    /\ dict_get
         (calculate_solar_economics
            (VFloat 1500) (VFloat 1000000) (VFloat 1500) (VFloat 100))
         "Estimasi_Area_m2"
       = Some (VFloat area)
    /\ (0 <= n)%Z
    /\ (area <? 0) = false
    /\ ((0 <? kapasitas_kwp pv bill tdl pct) = false -> n = 0%Z)
    /\ ((0 <? kapasitas_kwp pv bill tdl pct) = true ->
        (0 <? panel_quotient pv bill tdl pct) = true -> (1 <= n)%Z).
Proof.
  apply (panel_count_bounds
           (VFloat 1500) (VFloat 1000000) (VFloat 1500) (VFloat 100)).
  reflexivity.
Defined.

(** X6.  With a positive yield, bill, tariff and savings percentage, no
    numeric field of a success result is below zero (a field may round to
    0.0), [BEP_Tahun] is the string ["Inf"] or a number that is not below
    zero, and the panel count is not negative. *)
Theorem positive_inputs_nonnegative_fields a b c d pv bill tar pct :
  py_float a = Returned pv -> py_float b = Returned bill ->
  py_float c = Returned tar -> py_float d = Returned pct ->
  (0 <? pv) = true -> (0 <? bill) = true -> (0 <? tar) = true ->
  (0 <? pct) = true ->
  is_success (calculate_solar_economics a b c d) ->
  Forall (not_negative_field (calculate_solar_economics a b c d)) amount_fields
  /\ (dict_get (calculate_solar_economics a b c d) "BEP_Tahun"
      = Some (VStr "Inf")
      \/ not_negative_field (calculate_solar_economics a b c d) "BEP_Tahun")
  /\ exists n,
       dict_get (calculate_solar_economics a b c d) "Jumlah_Panel"
       = Some (VInt n)
       /\ (0 <= n)%Z.
Proof.
  intros Ha Hb Hc Hd Hpv Hbill Htar Hpct Hs.
  pose proof (effective_tariff_given c tar Hc Htar) as Ht.
  destruct (success_shape a b c d Hs)
    as (pv' & bill' & tdl' & pct' & n & Ha' & Hb' & Hc' & Hd' & Hz & Hn & Hr).
  rewrite Ha in Ha'. injection Ha' as <-. rewrite Hb in Hb'. injection Hb' as <-.
  rewrite Ht in Hc'. injection Hc' as <-. rewrite Hd in Hd'. injection Hd' as <-.
  destruct (jumlah_panel_bounds pv bill tar pct n Hn) as (Hn0 & _ & _).
  pose proof (target_fsign bill tar pct Hbill Htar Hpct) as Htarget.
  pose proof (kapasitas_fsign false pv bill tar pct
                (fsign_of_gt0 _ Hpv) Hbill Htar Hpct) as Hkap.
  assert (Hinv : fsign false (total_investasi pv bill tar pct)).
  { unfold total_investasi. apply (mul_fsign false false); [exact Hkap|].
    apply fsign_const. reflexivity. }
  assert (Hsave : fsign false (penghematan_tahunan_uang bill tar pct)).
  { unfold penghematan_tahunan_uang. apply (mul_fsign false false).
    - apply (mul_fsign false false); [exact Htarget|].
      apply fsign_const. reflexivity.
    - apply fsign_of_gt0, Htar. }
  rewrite Hr. split; [|split].
  - unfold amount_fields. repeat constructor;
      (eexists; split; [reflexivity|]); apply fsign_false_not_lt0;
      try apply py_round_fsign.
    + apply fsign_of_gt0, Htar.
    + apply fsign_of_gt0, Hpv.
    + apply pme_fsign, fsign_of_gt0, Hpv.
    + unfold kebutuhan_energi_bulanan.
      apply (div_fsign false false); apply fsign_of_gt0; assumption.
    + exact Hkap.
    + exact Htarget.
    + exact Hinv.
    + exact Hsave.
    + apply fsign_const. rewrite <- (py_round_sign _ 2). apply area_sign, Hn0.
    + apply fsign_const. reflexivity.
  - unfold success_record. cbn [dict_get String.eqb Ascii.eqb Bool.eqb].
    destruct (negb (bep_tahun pv bill tar pct =? infinity)); [right|left; reflexivity].
    eexists. split; [reflexivity|].
    apply fsign_false_not_lt0, py_round_fsign. unfold bep_tahun.
    destruct (0 <? penghematan_tahunan_uang bill tar pct).
    + apply (div_fsign false false); assumption.
    + apply fsign_const. reflexivity.
  - exists n. split; [reflexivity|exact Hn0].
Qed.

(** The example of the specification. *)
Lemma positive_inputs_nonnegative_fields_witness :
  Forall
    (not_negative_field
       (calculate_solar_economics
          (VFloat 1500) (VFloat 1000000) (VFloat 1500) (VFloat 100)))
    amount_fields
  /\ (dict_get
        (calculate_solar_economics
           (VFloat 1500) (VFloat 1000000) (VFloat 1500) (VFloat 100))
        "BEP_Tahun"
      = Some (VStr "Inf")
      \/ not_negative_field
           (calculate_solar_economics
              (VFloat 1500) (VFloat 1000000) (VFloat 1500) (VFloat 100))
           "BEP_Tahun")
  /\ exists n,
       dict_get
         (calculate_solar_economics
            (VFloat 1500) (VFloat 1000000) (VFloat 1500) (VFloat 100))
         "Jumlah_Panel"
       = Some (VInt n)
       /\ (0 <= n)%Z.
Proof.
  apply (positive_inputs_nonnegative_fields _ _ _ _ 1500 1000000 1500 100);
    reflexivity.
Defined.

(** X7.  A bill of zero (with a finite savings fraction) or a savings
    percentage of zero (with a finite monthly need), at a non-zero effective
    yield, is not an error: the call succeeds with no panel, no area, a
    production target of zero and [BEP_Tahun] the string ["Inf"]. *)
Theorem nothing_to_save a b c d pv bill tdl pct :
  py_float a = Returned pv -> py_float b = Returned bill ->
  effective_tariff c = Returned tdl -> py_float d = Returned pct ->
  (pvout_monthly_effective pv =? 0) = false ->
  ((bill =? 0) = true /\ is_finite (pct / 100) = true)
  \/ ((pct =? 0) = true /\ is_finite (bill / tdl) = true) ->
  is_success (calculate_solar_economics a b c d)
  /\ dict_get (calculate_solar_economics a b c d) "Jumlah_Panel"
     = Some (VInt 0)
  /\ dict_get (calculate_solar_economics a b c d) "Estimasi_Area_m2"
     = Some (VFloat 0)
  /\ dict_get (calculate_solar_economics a b c d) "BEP_Tahun"
     = Some (VStr "Inf")
  /\ exists x,
       dict_get (calculate_solar_economics a b c d) "Produksi_kWh_Bulanan"
       = Some (VFloat x)
       /\ (x =? 0) = true.
Proof.
  intros Ha Hb Hc Hd Hz H0.
  pose proof (effective_tariff_positive c tdl Hc) as Ht.
  pose proof (target_zero bill tdl pct Ht H0) as Hzero.
  assert (Hk : (0 <? kapasitas_kwp pv bill tdl pct) = false).
  { apply zero_or_nan_not_gt0. unfold kapasitas_kwp.
    apply zero_div_any, Hzero. }
  assert (Hs : (0 <? penghematan_tahunan_uang bill tdl pct) = false).
  { apply zero_or_nan_not_gt0. unfold penghematan_tahunan_uang.
    apply zero_mul_any. rewrite mul_spec.
    destruct twelve_finite as (m & e & E). rewrite E.
    apply zero_mul_const, Hzero. }
  rewrite (economics_outcome a b c d pv bill tdl pct Ha Hb Hc Hd), Hz.
  unfold panel_count. rewrite Hk. cbn [andb].
  split; [reflexivity|]. split; [reflexivity|]. split; [reflexivity|]. split.
  - unfold success_record. cbn [dict_get String.eqb Ascii.eqb Bool.eqb].
    unfold bep_tahun. rewrite Hs. reflexivity.
  - exists (py_round (target_produksi_bulanan bill tdl pct) 4).
    split; [reflexivity|]. apply zero_is_eq0.
    unfold py_round.
    destruct (Prim2SF (target_produksi_bulanan bill tdl pct)) eqn:E;
      try contradiction.
    rewrite E. exact I.
Qed.

(** A bill of zero. *)
Lemma nothing_to_save_witness :
  is_success
    (calculate_solar_economics
       (VFloat 1500) (VInt 0) (VFloat 1500) (VFloat 100))
  /\ dict_get
       (calculate_solar_economics
          (VFloat 1500) (VInt 0) (VFloat 1500) (VFloat 100))
       "Jumlah_Panel"
     = Some (VInt 0)
  /\ dict_get
       (calculate_solar_economics
          (VFloat 1500) (VInt 0) (VFloat 1500) (VFloat 100))
       "Estimasi_Area_m2"
     = Some (VFloat 0)
  /\ dict_get
       (calculate_solar_economics
          (VFloat 1500) (VInt 0) (VFloat 1500) (VFloat 100))
       "BEP_Tahun"
     = Some (VStr "Inf")
  /\ exists x,
       dict_get
         (calculate_solar_economics
            (VFloat 1500) (VInt 0) (VFloat 1500) (VFloat 100))
         "Produksi_kWh_Bulanan"
       = Some (VFloat x)
       /\ (x =? 0) = true.
Proof.
  apply (nothing_to_save _ _ _ _ 1500 0 1500 100);
    try reflexivity.
  left. split; reflexivity.
Defined.

(** X8.  Negative amounts are not rejected: with a positive effective
    yield, a negative bill at a positive percentage, or a positive bill at a
    negative percentage, gives a success result with no panel, no area,
    [BEP_Tahun] the string ["Inf"] and a [Kapasitas_kWp] that is not
    greater than zero. *)
Theorem negative_target_gives_no_panels a b c d pv bill tdl pct :
  py_float a = Returned pv -> py_float b = Returned bill ->
  effective_tariff c = Returned tdl -> py_float d = Returned pct ->
  (0 <? pvout_monthly_effective pv) = true ->
  ((bill <? 0) = true /\ (0 <? pct) = true)
  \/ ((0 <? bill) = true /\ (pct <? 0) = true) ->
  is_success (calculate_solar_economics a b c d)
  /\ dict_get (calculate_solar_economics a b c d) "Jumlah_Panel"
     = Some (VInt 0)
  /\ dict_get (calculate_solar_economics a b c d) "Estimasi_Area_m2"
     = Some (VFloat 0)
  /\ dict_get (calculate_solar_economics a b c d) "BEP_Tahun"
     = Some (VStr "Inf")
  /\ exists k,
       dict_get (calculate_solar_economics a b c d) "Kapasitas_kWp"
       = Some (VFloat k)
       /\ (0 <? k) = false.
Proof.
  intros Ha Hb Hc Hd Hp H.
  pose proof (effective_tariff_positive c tdl Hc) as Ht.
  pose proof (target_fsign_negative bill tdl pct Ht H) as Htarget.
  assert (Hkap : fsign true (kapasitas_kwp pv bill tdl pct)).
  { unfold kapasitas_kwp. apply (div_fsign true false); [exact Htarget|].
    apply fsign_of_gt0, Hp. }
  assert (Hs : (0 <? penghematan_tahunan_uang bill tdl pct) = false).
  { apply fsign_true_not_gt0. unfold penghematan_tahunan_uang.
    apply (mul_fsign true false); [|apply fsign_of_gt0, Ht].
    apply (mul_fsign true false); [exact Htarget|].
    apply fsign_const. reflexivity. }
  rewrite (economics_outcome a b c d pv bill tdl pct Ha Hb Hc Hd).
  rewrite (gt0_nonzero _ Hp), (fsign_true_not_gt0 _ Hkap). cbn [andb].
  unfold panel_count. rewrite (fsign_true_not_gt0 _ Hkap).
  split; [reflexivity|]. split; [reflexivity|]. split; [reflexivity|]. split.
  - unfold success_record. cbn [dict_get String.eqb Ascii.eqb Bool.eqb].
    unfold bep_tahun. rewrite Hs. reflexivity.
  - eexists. split; [reflexivity|].
    apply fsign_true_not_gt0, py_round_fsign, Hkap.
Qed.

(** A bill of minus one million. *)
Lemma negative_target_gives_no_panels_witness :
  is_success
    (calculate_solar_economics
       (VFloat 1500) (VFloat (-1000000)) (VFloat 1500) (VFloat 100))
  /\ dict_get
       (calculate_solar_economics
          (VFloat 1500) (VFloat (-1000000)) (VFloat 1500) (VFloat 100))
       "Jumlah_Panel"
     = Some (VInt 0)
  /\ dict_get
       (calculate_solar_economics
          (VFloat 1500) (VFloat (-1000000)) (VFloat 1500) (VFloat 100))
       "Estimasi_Area_m2"
     = Some (VFloat 0)
  /\ dict_get
       (calculate_solar_economics
          (VFloat 1500) (VFloat (-1000000)) (VFloat 1500) (VFloat 100))
       "BEP_Tahun"
     = Some (VStr "Inf")
  /\ exists k,
       dict_get
         (calculate_solar_economics
            (VFloat 1500) (VFloat (-1000000)) (VFloat 1500) (VFloat 100))
         "Kapasitas_kWp"
       = Some (VFloat k)
       /\ (0 <? k) = false.
Proof.
  apply (negative_target_gives_no_panels _ _ _ _ 1500 (-1000000) 1500 100);
    try reflexivity.
  left. split; reflexivity.
Defined.

(** X9.  A NaN yield passes the zero test of line 71 ([nan == 0] is
    false): the call succeeds, [Kapasitas_kWp] and [PVOUT_Bulanan_Efektif]
    are NaN, and there is no panel and no area. *)
Theorem nan_yield_not_rejected a b c d pv bill tdl pct :
  py_float a = Returned pv -> py_float b = Returned bill ->
  effective_tariff c = Returned tdl -> py_float d = Returned pct ->
  is_nan pv = true ->
  is_success (calculate_solar_economics a b c d)
  /\ dict_get (calculate_solar_economics a b c d) "Kapasitas_kWp"
     = Some (VFloat nan)
  /\ dict_get (calculate_solar_economics a b c d) "PVOUT_Bulanan_Efektif"
     = Some (VFloat nan)
  /\ dict_get (calculate_solar_economics a b c d) "Jumlah_Panel"
     = Some (VInt 0)
  /\ dict_get (calculate_solar_economics a b c d) "Estimasi_Area_m2"
     = Some (VFloat 0).
Proof.
  intros Ha Hb Hc Hd Hn. apply is_nan_spec in Hn. subst pv.
  rewrite (economics_outcome a b c d nan bill tdl pct Ha Hb Hc Hd).
  assert (Hp : pvout_monthly_effective nan = nan) by reflexivity.
  assert (Hk : kapasitas_kwp nan bill tdl pct = nan).
  { unfold kapasitas_kwp. rewrite Hp. apply div_nan. }
  unfold panel_count, success_record. rewrite Hk, Hp.
  repeat split; reflexivity.
Qed.

(** The yield given as the string ["nan"]. *)
Lemma nan_yield_not_rejected_witness :
  is_success
    (calculate_solar_economics
       (VStr "nan") (VFloat 1000000) (VFloat 1500) (VFloat 100))
  /\ dict_get
       (calculate_solar_economics
          (VStr "nan") (VFloat 1000000) (VFloat 1500) (VFloat 100))
       "Kapasitas_kWp"
     = Some (VFloat nan)
  /\ dict_get
       (calculate_solar_economics
          (VStr "nan") (VFloat 1000000) (VFloat 1500) (VFloat 100))
       "PVOUT_Bulanan_Efektif"
     = Some (VFloat nan)
  /\ dict_get
       (calculate_solar_economics
          (VStr "nan") (VFloat 1000000) (VFloat 1500) (VFloat 100))
       "Jumlah_Panel"
     = Some (VInt 0)
  /\ dict_get
       (calculate_solar_economics
          (VStr "nan") (VFloat 1000000) (VFloat 1500) (VFloat 100))
       "Estimasi_Area_m2"
     = Some (VFloat 0).
Proof.
  apply (nan_yield_not_rejected _ _ _ _ nan 1000000 1500 100); reflexivity.
Defined.

(** X10.  An infinite bill, at a positive finite effective yield, a finite
    tariff and a savings fraction above zero, makes the capacity infinite;
    [math.ceil] raises on it and the call returns the error dictionary with
    the message of that [OverflowError]. *)
Theorem infinite_bill_is_an_error a b c d pv tdl pct :
  py_float a = Returned pv -> py_float b = Returned infinity ->
  effective_tariff c = Returned tdl -> py_float d = Returned pct ->
  (0 <? pvout_monthly_effective pv) = true ->
  is_finite (pvout_monthly_effective pv) = true ->
  is_finite tdl = true ->
  (0 <? pct / 100) = true ->
  calculate_solar_economics a b c d
  = [("error",
      VStr "Kesalahan perhitungan finansial: cannot convert float infinity to integer")].
Proof.
  intros Ha Hb Hc Hd Hp Hpf Htf Hpct.
  pose proof (effective_tariff_positive c tdl Hc) as Ht.
  destruct (infinite_bill_quotient pv tdl pct Hp Hpf Ht Htf Hpct) as [Hk Hq].
  rewrite (economics_outcome a b c d pv infinity tdl pct Ha Hb Hc Hd).
  rewrite (gt0_nonzero _ Hp), (inf_is_gt0 _ Hk), (inf_is_infinity _ Hq).
  reflexivity.
Qed.

(** The bill given as the string ["inf"]. *)
Lemma infinite_bill_is_an_error_witness :
  calculate_solar_economics
    (VFloat 1500) (VStr "inf") (VFloat 1500) (VFloat 100)
  = [("error",
      VStr "Kesalahan perhitungan finansial: cannot convert float infinity to integer")].
Proof.
  apply (infinite_bill_is_an_error _ _ _ _ 1500 1500 100); reflexivity.
Defined.

(** X11.  Whatever the network does, [get_pvout_annual] returns either a
    dictionary with the one key [error], whose message starts with
    ["PVGIS request error: "], is the missing-value text, or starts with
    ["Unexpected error while fetching PVOUT: "], or a dictionary with
    exactly the keys [pvout_numeric] (a float) and [pvout_formatted] (a
    string); never both kinds of key. *)
Theorem lookup_result_shape net latitude longitude loss slope azimuth :
  let r := get_pvout_annual net latitude longitude loss slope azimuth in
  ((exists msg,
      r = [("error", VStr msg)]
      /\ (starts_with "PVGIS request error: " msg = true
          \/ msg = "PVGIS response missing E_y value."
          \/ starts_with "Unexpected error while fetching PVOUT: " msg = true))
   /\ dict_get r "pvout_numeric" = None)
  \/ ((exists f s,
         r = [("pvout_numeric", VFloat f); ("pvout_formatted", VStr s)])
      /\ dict_get r "error" = None).
Proof.
  cbv zeta.
  assert (Hrep : forall e,
            exists msg, report e = [("error", VStr msg)]
              /\ (starts_with "PVGIS request error: " msg = true
                  \/ msg = "PVGIS response missing E_y value."
                  \/ starts_with "Unexpected error while fetching PVOUT: " msg
                     = true)).
  { intros e. unfold report. destruct (is_request_exception e); eexists;
      (split; [reflexivity|]); [left|right; right]; apply starts_with_app. }
  destruct (lookup_cases net latitude longitude loss slope azimuth)
    as [e Hn Hr|resp e Hn Hs He Hr|resp e Hn Hs Hj Hr|resp data Hn Hs Hj Hp Hr
       |resp data v e Hn Hs Hj Hp Hf Hr|resp data v f Hn Hs Hj Hp Hf Hr];
    rewrite Hr.
  - left. destruct (Hrep e) as (msg & -> & H). split; [|reflexivity]. eauto.
  - left. split; [|reflexivity]. eexists. split; [reflexivity|].
    left. apply starts_with_app.
  - left. destruct (Hrep e) as (msg & -> & H). split; [|reflexivity]. eauto.
  - left. split; [|reflexivity]. eexists. split; [reflexivity|].
    right. left. reflexivity.
  - left. split; [|reflexivity]. eexists. split; [reflexivity|].
    right. right. apply starts_with_app.
  - right. split; [|reflexivity]. eexists. eexists. reflexivity.
Qed.

(** X12.  The lookup returns [pvout_numeric = f] exactly when the request
    returned a response whose status is not 4xx or 5xx, whose body parsed,
    whose path [outputs.totals.fixed.E_y] exists and whose value there
    [float] turns into [f]. *)
Theorem lookup_succeeds_iff net latitude longitude loss slope azimuth f :
  dict_get (get_pvout_annual net latitude longitude loss slope azimuth)
    "pvout_numeric" = Some (VFloat f)
  <-> exists resp data v,
        net (pvgis_url latitude longitude loss slope azimuth) = Returned resp
        /\ http_error_status resp = false
        /\ json resp = Returned data
        /\ lookup_path E_y_path data = Some v
        /\ py_float v = Returned f.
Proof.
  split.
  - destruct (lookup_cases net latitude longitude loss slope azimuth)
      as [e Hn Hr|resp e Hn Hs He Hr|resp e Hn Hs Hj Hr|resp data Hn Hs Hj Hp Hr
         |resp data v e Hn Hs Hj Hp Hf Hr|resp data v f' Hn Hs Hj Hp Hf Hr];
      rewrite Hr; try discriminate.
    + unfold report. destruct (is_request_exception e); discriminate.
    + unfold report. destruct (is_request_exception e); discriminate.
    + intros H. injection H as <-. exists resp, data, v. auto.
  - intros (resp & data & v & Hn & Hs & Hj & Hp & Hf).
    unfold get_pvout_annual, get_pvout_annual_try.
    rewrite Hn. cbn [bind]. rewrite (raise_for_status_ok _ resp Hs). cbn [bind].
    rewrite Hj. cbn [bind].
    pose proof (get_E_y_lookup data) as Hg.
    destruct (get_E_y data) as [v'|e].
    + rewrite Hp in Hg. injection Hg as <-. rewrite Hf. reflexivity.
    + rewrite Hp in Hg. discriminate.
Qed.

(** A response 200 with the sample body. *)
Lemma lookup_succeeds_iff_witness :
  dict_get
    (get_pvout_annual
       (fun _ => Returned (mk_response 200 "OK" (Returned sample_body)))
       (VFloat (-6.2)) (VFloat 106.8) default_loss default_slope default_azimuth)
    "pvout_numeric"
  = Some (VFloat 1234.56).
Proof.
  apply (proj2 (lookup_succeeds_iff
                  (fun _ => Returned (mk_response 200 "OK" (Returned sample_body)))
                  (VFloat (-6.2)) (VFloat 106.8)
                  default_loss default_slope default_azimuth 1234.56)).
  exists (mk_response 200 "OK" (Returned sample_body)), sample_body,
    (VFloat 1234.56).
  repeat split; reflexivity.
Defined.

(** X13.  [pvout_formatted] never contains a dot: it is the text of the
    yield rounded to one decimal with every dot replaced by a comma, of the
    same length, and it comes with the [pvout_numeric] it was made from. *)
Theorem formatted_yield_has_no_dot net latitude longitude loss slope azimuth s :
  dict_get (get_pvout_annual net latitude longitude loss slope azimuth)
    "pvout_formatted" = Some (VStr s) ->
  has_char "." s = false
  /\ exists f,
       dict_get (get_pvout_annual net latitude longitude loss slope azimuth)
         "pvout_numeric" = Some (VFloat f)
       /\ s = replace_char "." "," (float_repr (py_round f 1))
       /\ String.length s = String.length (float_repr (py_round f 1)).
Proof.
  destruct (lookup_cases net latitude longitude loss slope azimuth)
    as [e Hn Hr|resp e Hn Hs He Hr|resp e Hn Hs Hj Hr|resp data Hn Hs Hj Hp Hr
       |resp data v e Hn Hs Hj Hp Hf Hr|resp data v f Hn Hs Hj Hp Hf Hr];
    rewrite Hr; try discriminate.
  - unfold report. destruct (is_request_exception e); discriminate.
  - unfold report. destruct (is_request_exception e); discriminate.
  - intros H. injection H as <-. split.
    + apply has_char_replace. reflexivity.
    + exists f. split; [reflexivity|]. split; [reflexivity|].
      apply length_replace.
Qed.

(** The sample body: 1234.56 is shown as ["1234,6"]. *)
Lemma formatted_yield_has_no_dot_witness :
  has_char "." "1234,6" = false
  /\ exists f,
       dict_get
         (get_pvout_annual
            (fun _ => Returned (mk_response 200 "OK" (Returned sample_body)))
            (VFloat (-6.2)) (VFloat 106.8)
            default_loss default_slope default_azimuth)
         "pvout_numeric"
       = Some (VFloat f)
       /\ "1234,6" = replace_char "." "," (float_repr (py_round f 1))
       /\ String.length "1234,6" = String.length (float_repr (py_round f 1)).
Proof.
  apply (formatted_yield_has_no_dot
           (fun _ => Returned (mk_response 200 "OK" (Returned sample_body)))
           (VFloat (-6.2)) (VFloat 106.8)
           default_loss default_slope default_azimuth "1234,6").
  reflexivity.
Defined.

(** X14.  Faults outside the request classes are reported as unexpected:
    an exception of [requests.get] that is no [RequestException], and an
    [E_y] that [float] rejects, give the message
    ["Unexpected error while fetching PVOUT: ..."]; an exception of
    [r.json()] is reported by its class, as a request error or as
    unexpected. *)
Theorem other_faults_are_unexpected net latitude longitude loss slope azimuth :
  let url := pvgis_url latitude longitude loss slope azimuth in
  let r := get_pvout_annual net latitude longitude loss slope azimuth in
  (forall e,
     net url = Raised e -> is_request_exception e = false ->
     r = unexpected_error e)
  /\ (forall resp e,
        net url = Returned resp -> http_error_status resp = false ->
        json resp = Raised e ->
        r = if is_request_exception e
            then request_error e else unexpected_error e)
  /\ (forall resp data v e,
        net url = Returned resp -> http_error_status resp = false ->
        json resp = Returned data -> lookup_path E_y_path data = Some v ->
        py_float v = Raised e ->
        r = unexpected_error e).
Proof.
  cbv zeta. unfold get_pvout_annual, get_pvout_annual_try. split; [|split].
  - intros e Hn He. rewrite Hn. cbn [bind]. rewrite He. reflexivity.
  - intros resp e Hn Hs Hj. rewrite Hn. cbn [bind].
    rewrite (raise_for_status_ok _ resp Hs). cbn [bind]. rewrite Hj. reflexivity.
  - intros resp data v e Hn Hs Hj Hp Hf. rewrite Hn. cbn [bind].
    rewrite (raise_for_status_ok _ resp Hs). cbn [bind]. rewrite Hj. cbn [bind].
    pose proof (get_E_y_lookup data) as Hg.
    destruct (get_E_y data) as [v'|e0].
    + rewrite Hp in Hg. injection Hg as <-. rewrite Hf. cbn [bind].
      rewrite (py_float_error_class v e Hf). reflexivity.
    + rewrite Hp in Hg. discriminate.
Qed.

(** A fault of the transport, a body that is no JSON, and an [E_y] that is
    no number. *)
Lemma other_faults_are_unexpected_witness :
  get_pvout_annual (fun _ => Raised (mk_exn OtherException "boom"))
    (VFloat (-6.2)) (VFloat 106.8) default_loss default_slope default_azimuth
  = [("error", VStr "Unexpected error while fetching PVOUT: boom")]
  /\ get_pvout_annual
       (fun _ => Returned
                   (mk_response 200 "OK"
                      (Raised (mk_exn RequestException
                                 "Expecting value: line 1 column 1 (char 0)"))))
       (VFloat (-6.2)) (VFloat 106.8) default_loss default_slope default_azimuth
     = [("error",
         VStr "PVGIS request error: Expecting value: line 1 column 1 (char 0)")]
  /\ get_pvout_annual
       (fun _ => Returned
                   (mk_response 200 "OK"
                      (Returned
                         (VDict [("outputs",
                                  VDict [("totals",
                                          VDict [("fixed",
                                                  VDict [("E_y", VStr "n/a")])])])]))))
       (VFloat (-6.2)) (VFloat 106.8) default_loss default_slope default_azimuth
     = [("error",
         VStr "Unexpected error while fetching PVOUT: could not convert string to float: 'n/a'")].
Proof.
  split; [|split].
  - apply (proj1 (other_faults_are_unexpected
                    (fun _ => Raised (mk_exn OtherException "boom"))
                    (VFloat (-6.2)) (VFloat 106.8)
                    default_loss default_slope default_azimuth)
             (mk_exn OtherException "boom"));
      reflexivity.
  - apply (proj1 (proj2 (other_faults_are_unexpected
                    (fun _ => Returned
                       (mk_response 200 "OK"
                          (Raised (mk_exn RequestException
                                     "Expecting value: line 1 column 1 (char 0)"))))
                    (VFloat (-6.2)) (VFloat 106.8)
                    default_loss default_slope default_azimuth))
             (mk_response 200 "OK"
                (Raised (mk_exn RequestException
                           "Expecting value: line 1 column 1 (char 0)")))
             (mk_exn RequestException
                "Expecting value: line 1 column 1 (char 0)"));
      reflexivity.
  - apply (proj2 (proj2 (other_faults_are_unexpected
                    (fun _ => Returned
                       (mk_response 200 "OK"
                          (Returned
                             (VDict [("outputs",
                                      VDict [("totals",
                                              VDict [("fixed",
                                                      VDict [("E_y", VStr "n/a")])])])]))))
                    (VFloat (-6.2)) (VFloat 106.8)
                    default_loss default_slope default_azimuth))
             (mk_response 200 "OK"
                (Returned
                   (VDict [("outputs",
                            VDict [("totals",
                                    VDict [("fixed",
                                            VDict [("E_y", VStr "n/a")])])])])))
             (VDict [("outputs",
                      VDict [("totals",
                              VDict [("fixed",
                                      VDict [("E_y", VStr "n/a")])])])])
             (VStr "n/a")
             (mk_exn ValueError "could not convert string to float: 'n/a'"));
      reflexivity.
Defined.
